(** * IEC link shortener: the request handler of [src/backend/server.ts]

    The service is one request handler given to [serve].  It keeps all
    its state in a Deno KV store, draws short identifiers from
    [crypto.randomUUID] and answers with [Response] objects.  This file
    embeds the handler (the first, current revision found in
    [server.ts]), the part of the HTTP server that turns a throwing
    handler into a 500 response, and states the properties of the
    shortening service about them.  The two earlier revisions kept in
    [server.ts] and the backoff of the server's accept loop are embedded
    as well, in the modules [Legacy] and [Accept]. *)

From stdpp Require Import gmap strings list fin_maps.
From Stdlib Require Import ZArith.

Local Open Scope Z_scope.

(** ** JavaScript string methods used by the handler *)

Module JS.

(** [isPrefix p s]: [p] is an initial segment of [s]. *)
Fixpoint isPrefix (p s : string) : bool :=
  match p, s with
  | EmptyString, _ => true
  | String a p', String b s' => Ascii.eqb a b && isPrefix p' s'
  | String _ _, EmptyString => false
  end.

(** [s.startsWith(p)] *)
Definition startsWith (s p : string) : bool := isPrefix p s.

(** [s.includes(needle)]: [needle] occurs at some position of [s]. *)
Fixpoint includes (s needle : string) : bool :=
  isPrefix needle s ||
  match s with
  | EmptyString => false
  | String _ s' => includes s' needle
  end.

(** [s.slice(n)] for a non-negative [n]: drop the first [n] characters. *)
Fixpoint slice_from (n : nat) (s : string) : string :=
  match n, s with
  | O, _ => s
  | S _, EmptyString => EmptyString
  | S n', String _ s' => slice_from n' s'
  end.

(** [take n s]: the first [n] characters of [s] (all of it when shorter). *)
Fixpoint take (n : nat) (s : string) : string :=
  match n, s with
  | O, _ => EmptyString
  | S _, EmptyString => EmptyString
  | S n', String c s' => String c (take n' s')
  end.

(** [s.slice(b, e)] for non-negative [b] and [e]. *)
Definition slice (b e : nat) (s : string) : string :=
  take (e - b) (slice_from b s).

End JS.

(** ** Values *)

(** The values [req.json()] can produce.  Numbers are kept as integers:
    the handler never computes with them. *)
#[local] Set Warnings "-register-all".
Inductive JSON : Type :=
  | JNull
  | JBool (b : bool)
  | JNum (n : Z)
  | JStr (s : string)
  | JArr (items : list JSON)
  | JObj (fields : list (string * JSON)).

(** Errors a request can raise. *)
Inductive JsError : Type :=
  | SyntaxError            (* [req.json()] on a body that is not JSON *)
  | TypeError              (* property access on undefined/null, call of a
                              non-function, invalid KV key part *)
  | NotFound (path : string). (* [Deno.readTextFile] on a missing file *)

(** The value kept under a key: [{ shortId, url: longUrl }], the one
    shape this revision of the handler writes.  A stored value is an
    object, hence truthy in [if (existingEntry.value)]. *)
Record Entry : Type := mkEntry { shortId : string; url : string }.

(** A KV key is an array of key parts; the handler only builds keys of
    two string parts, [["urls", k]]. *)
Abbreviation Kv := (gmap (list string) Entry).

(** Body of a response.  [BodyJson v] is the text [JSON.stringify(v)]. *)
Inductive Body : Type :=
  | BodyNull
  | BodyText (text : string)
  | BodyJson (v : JSON).

(** A response: [new Response(body, { status, headers })], whose status
    defaults to 200, or [Response.redirect(url, status)], whose
    construction (parsing [url], setting [Location]) is the platform's.
    [Redirect location status] is what that call returns when it
    returns; on a string that does not parse as an absolute URL it
    throws instead, which is not modelled. *)
Inductive Response : Type :=
  | NewResponse (body : Body) (status : Z) (headers : list (string * string))
  | Redirect (location : string) (status : Z).

Definition status_of (r : Response) : Z :=
  match r with
  | NewResponse _ st _ => st
  | Redirect _ st => st
  end.

(** What the handler reads of a request: [req.method],
    [new URL(req.url).pathname] and the outcome of [req.json()]
    ([None] when the body is not JSON). *)
Record Request : Type := mkRequest {
  method : string;
  pathname : string;
  json : option JSON
}.

(** What the platform supplies to one run of the handler: the value of
    [crypto.randomUUID()] and the text files [Deno.readTextFile] sees. *)
Record Platform : Type := mkPlatform {
  randomUUID : string;
  readTextFile : string -> option string
}.

(** ** Computations over the store that may throw *)

Inductive Outcome (A : Type) : Type :=
  | Returns (a : A)
  | Throws (e : JsError).
Arguments Returns {A} a.
Arguments Throws {A} e.

Definition Async (A : Type) : Type := Kv -> Outcome A * Kv.

Definition ret {A} (a : A) : Async A := fun kv => (Returns a, kv).
Definition throw {A} (e : JsError) : Async A := fun kv => (Throws e, kv).
Definition bind {A B} (m : Async A) (k : A -> Async B) : Async B :=
  fun kv =>
    match m kv with
    | (Returns a, kv') => k a kv'
    | (Throws e, kv') => (Throws e, kv')
    end.

Notation "'await' x '<-' m 'in' k" := (bind m (fun x => k))
  (at level 10, x name, m at level 200, k at level 200).
Notation "'perform' m 'in' k" := (bind m (fun _ => k))
  (at level 10, m at level 200, k at level 200).

(** *** The size limits of the store

    Deno KV encodes a key part by part; a string part takes a type byte,
    its UTF-8 bytes with every zero byte followed by an escape byte, and
    a terminator.  A write refuses a key of more than 2048 encoded
    bytes.  A read of one key is a range that starts at the key and ends
    one byte after it, and refuses a bound of more than 2049 bytes, so it
    holds the key to 2048 bytes as well.  Both throw a [TypeError].
    Strings stand for their UTF-8 bytes throughout. *)

Fixpoint encodedBytes (s : string) : nat :=
  match s with
  | EmptyString => O
  | String c s' => ((if Ascii.eqb c Ascii.zero then 2 else 1) + encodedBytes s')%nat
  end.

Fixpoint keySize (key : list string) : nat :=
  match key with
  | [] => O
  | part :: rest => (2 + encodedBytes part + keySize rest)%nat
  end.

Definition MAX_WRITE_KEY_SIZE_BYTES : nat := 2048.
Definition MAX_READ_KEY_SIZE_BYTES : nat := 2049.

Definition fitsRead (key : list string) : bool :=
  (keySize key + 1 <=? MAX_READ_KEY_SIZE_BYTES)%nat.
Definition fitsWrite (key : list string) : bool :=
  (keySize key <=? MAX_WRITE_KEY_SIZE_BYTES)%nat.

(** [kv.get(key)] *)
Definition kv_get (key : list string) : Async (option Entry) :=
  fun kv => if fitsRead key then (Returns (kv !! key), kv) else (Throws TypeError, kv).

(** [kv.set(key, value)].  The store also refuses a value of more than
    64 KiB; the one value written here, a six-character identifier with
    the URL that is already part of the accepted key, stays far below. *)
Definition kv_set (key : list string) (value : Entry) : Async unit :=
  fun kv =>
    if fitsWrite key then (Returns tt, <[key := value]> kv) else (Throws TypeError, kv).

(** ** The handler *)

Definition corsHeaders : list (string * string) :=
  [("Access-Control-Allow-Origin", "*");
   ("Access-Control-Allow-Methods", "*");
   ("Access-Control-Allow-Headers", "*")].

(** [{ "Content-Type": t, ...corsHeaders }] *)
Definition typedHeaders (t : string) : list (string * string) :=
  ("Content-Type", t) :: corsHeaders.

(** [await req.json()] *)
Definition req_json (req : Request) : Async JSON :=
  match json req with
  | Some v => ret v
  | None => throw SyntaxError
  end.

(** Own property [name] of a parsed object; of duplicate members
    [JSON.parse] keeps the last. *)
Fixpoint get_field (name : string) (fields : list (string * JSON)) : option JSON :=
  match fields with
  | [] => None
  | (k, v) :: rest =>
      match get_field name rest with
      | Some w => Some w
      | None => if String.eqb k name then Some v else None
      end
  end.

(** [const { url: longUrl } = v]: destructuring null throws; a value that
    is not an object has no [url] property.  [None] is [undefined]. *)
Definition destructure_url (v : JSON) : Async (option JSON) :=
  match v with
  | JNull => throw TypeError
  | JObj fields => ret (get_field "url" fields)
  | _ => ret None
  end.

(** [x === needle] for a JSON value [x] and a string [needle]. *)
Definition strict_eq_str (x : JSON) (needle : string) : bool :=
  match x with
  | JStr s => String.eqb s needle
  | _ => false
  end.

(** [longUrl.includes(needle)]: the string method on a string, the array
    method on an array; on anything else [includes] is not a function. *)
Definition call_includes (longUrl : option JSON) (needle : string) : Async bool :=
  match longUrl with
  | Some (JStr s) => ret (JS.includes s needle)
  | Some (JArr items) => ret (existsb (fun x => strict_eq_str x needle) items)
  | _ => throw TypeError
  end.

(** A value used as a KV key part must be a string here (numbers and
    booleans cannot reach this point: [includes] has thrown on them). *)
Definition key_part (longUrl : option JSON) : Async string :=
  match longUrl with
  | Some (JStr s) => ret s
  | _ => throw TypeError
  end.

(** [new Response(JSON.stringify({ shortId }), { headers: ... })] *)
Definition shortIdResponse (id : string) : Response :=
  NewResponse (BodyJson (JObj [("shortId", JStr id)])) 200
              (typedHeaders "application/json").

Definition domainLoopResponse : Response :=
  NewResponse (BodyText "Error: Long URL cannot contain '.deno.dev'") 400 corsHeaders.

Definition urlNotFoundResponse : Response :=
  NewResponse (BodyText "URL not found") 404 corsHeaders.

Definition notFoundResponse : Response :=
  NewResponse (BodyText "Not Found") 404 corsHeaders.

(** The [POST /shorten] branch. *)
Definition shorten (env : Platform) (req : Request) : Async Response :=
  await body <- req_json req in
  await longUrl <- destructure_url body in
  await looped <- call_includes longUrl ".deno.dev" in
  if (looped : bool) then ret domainLoopResponse
  else
    await u <- key_part longUrl in
    await existingEntry <- kv_get ["urls"; u] in
    match existingEntry with
    | Some e => ret (shortIdResponse (shortId e))
    | None =>
        let id := JS.slice 0 6 (randomUUID env) in
        perform kv_set ["urls"; u] (mkEntry id u) in
        ret (shortIdResponse id)
    end.

(** The [GET /{shortId}] branch. *)
Definition resolve (req : Request) : Async Response :=
  let id := JS.slice_from 1 (pathname req) in
  await result <- kv_get ["urls"; id] in
  match result with
  | Some e => ret (Redirect (url e) 302)
  | None => ret urlNotFoundResponse
  end.

(** [new Response(await Deno.readTextFile(path), { headers: ... })] *)
Definition serveFile (env : Platform) (path contentType : string) : Async Response :=
  match readTextFile env path with
  | Some text => ret (NewResponse (BodyText text) 200 (typedHeaders contentType))
  | None => throw (NotFound path)
  end.

(** The three static-file branches and the final fallback. *)
Definition staticFiles (env : Platform) (req : Request) : Async Response :=
  if String.eqb (method req) "GET" && String.eqb (pathname req) "/" then
    serveFile env "./index.html" "text/html"
  else if String.eqb (method req) "GET" && String.eqb (pathname req) "/styles.css" then
    serveFile env "./styles.css" "text/css"
  else if String.eqb (method req) "GET" && String.eqb (pathname req) "/script.js" then
    serveFile env "./script.js" "application/javascript"
  else ret notFoundResponse.

(** The function given to [serve]. *)
Definition handler (env : Platform) (req : Request) : Async Response :=
  if String.eqb (method req) "OPTIONS" then
    ret (NewResponse BodyNull 200 corsHeaders)
  else if String.eqb (method req) "POST" && String.eqb (pathname req) "/shorten" then
    shorten env req
  else if String.eqb (method req) "GET" && JS.startsWith (pathname req) "/" then
    resolve req
  else staticFiles env req.

(** The handler with the static-file branches deleted. *)
Definition handler_no_static (env : Platform) (req : Request) : Async Response :=
  if String.eqb (method req) "OPTIONS" then
    ret (NewResponse BodyNull 200 corsHeaders)
  else if String.eqb (method req) "POST" && String.eqb (pathname req) "/shorten" then
    shorten env req
  else if String.eqb (method req) "GET" && JS.startsWith (pathname req) "/" then
    resolve req
  else ret notFoundResponse.

(** ** The server around the handler *)

(** The default [onError] of [Server]. *)
Definition onError (e : JsError) : Response :=
  NewResponse (BodyText "Internal Server Error") 500 [].

(** [Server.#respond]: run the handler, answer with [onError] when it throws. *)
Definition respond (env : Platform) (req : Request) (kv : Kv) : Response * Kv :=
  match handler env req kv with
  | (Returns r, kv') => (r, kv')
  | (Throws e, kv') => (onError e, kv')
  end.

(** ** Requests and scenarios *)

Definition postShorten (body : JSON) : Request :=
  mkRequest "POST" "/shorten" (Some body).

Definition shortenUrl (u : string) : Request :=
  postShorten (JObj [("url", JStr u)]).

Definition getPath (path : string) : Request :=
  mkRequest "GET" path None.

(** The GET request whose path is [id] after a slash, for strings that a
    URL path carries as they are. *)
Definition visit (id : string) : Request := getPath ("/" +:+ id).

Definition noFiles : string -> option string := fun _ => None.

Definition uuidA : string := "a1b2c3d4-5e6f-4a7b-8c9d-0e1f2a3b4c5d".
Definition uuidB : string := "a1b2c3ee-1111-4222-9333-444455556666".
Definition uuidC : string := "0f9e8d7c-6b5a-4c3d-8e2f-1a0b9c8d7e6f".

(** A long URL of 2041 bytes; the key made of it takes 2049 bytes, one
    more than the store accepts. *)
Fixpoint padding (n : nat) : string :=
  match n with
  | O => ""
  | S n' => "a" +:+ padding n'
  end.

Definition overlongUrl : string := "https://example.com/" +:+ padding 2021.

(** The store after the string [a1b2c3] itself was shortened. *)
Definition takenStore : Kv :=
  (respond (mkPlatform uuidC noFiles) (shortenUrl "a1b2c3") ∅).2.

(** The identifier the handler would allocate in this run. *)
Definition candidate (env : Platform) : string := JS.slice 0 6 (randomUUID env).

(** ** Properties of the store *)

(** Bidirectional consistency: the short identifier of every forward
    record (keyed by a long URL) has a reverse record (keyed by that
    identifier) leading back to the same long URL. *)
Definition bidirectional (kv : Kv) : Prop :=
  forall (u : string) (e : Entry),
    kv !! ["urls"; u] = Some e ->
    exists r : Entry, kv !! ["urls"; shortId e] = Some r /\ url r = u.

(** The records kept under the long URL [u]. *)
Definition forwardRecords (u : string) (kv : Kv) : Kv :=
  filter (fun p : list string * Entry => p.1 = ["urls"; u]) kv.

(** No two keys carry the same short identifier. *)
Definition ids_injective (kv : Kv) : Prop :=
  forall (k1 k2 : list string) (e1 e2 : Entry),
    kv !! k1 = Some e1 -> kv !! k2 = Some e2 ->
    shortId e1 = shortId e2 -> k1 = k2.

(** [id] is the short identifier of no stored record. *)
Definition fresh (id : string) (kv : Kv) : Prop :=
  forall (k : list string) (e : Entry), kv !! k = Some e -> shortId e <> id.

(** When shortening [u] has to allocate, the identifier drawn is fresh. *)
Definition draw_ok (env : Platform) (u : string) (kv : Kv) : Prop :=
  kv !! ["urls"; u] = None -> fresh (candidate env) kv.

(** ** Sequences of requests *)

(** The store after a sequence of requests, each with what the platform
    supplied to it. *)
Fixpoint run (trace : list (Platform * Request)) (kv : Kv) : Kv :=
  match trace with
  | [] => kv
  | (env, req) :: rest => run rest (respond env req kv).2
  end.

(** Every record sits under the key made of its own [url]. *)
Definition well_keyed (kv : Kv) : Prop :=
  forall (k : list string) (e : Entry), kv !! k = Some e -> k = ["urls"; url e].

(** ** The two earlier revisions of the handler

    [server.ts] also holds the two revisions that preceded the current
    one.  They keep [{ url }] under the short identifier, do not look
    for an existing record and do not inspect the URL. *)

Module Legacy.

(** The value kept under a key: [{ url }], with whatever the body had
    under [url] ([None] is [undefined]). *)
Record Entry : Type := mkEntry { url : option JSON }.

Abbreviation Kv := (gmap (list string) Entry).

(** A response; [Response.redirect] is given the stored value as it is.
    [RedirectTo target status] is what the call returns when it
    returns: it throws on a value that does not parse as an absolute
    URL, which is not modelled, so statements on a visit speak of the
    store and of the redirect if there is one. *)
Inductive Reply : Type :=
  | Made (body : Body) (status : Z) (headers : list (string * string))
  | RedirectTo (target : option JSON) (status : Z).

Definition status_of (r : Reply) : Z :=
  match r with
  | Made _ st _ => st
  | RedirectTo _ st => st
  end.

(** The reply without its headers. *)
Definition bare (r : Reply) : Reply :=
  match r with
  | Made body st _ => Made body st []
  | RedirectTo target st => RedirectTo target st
  end.

(** [const { url } = await req.json()] *)
Definition body_url (req : Request) : Outcome (option JSON) :=
  match json req with
  | None => Throws SyntaxError
  | Some JNull => Throws TypeError
  | Some (JObj fields) => Returns (get_field "url" fields)
  | Some _ => Returns None
  end.

(** The [POST /shorten] branch; [cors] is what [...corsHeaders] adds.
    [kv.set] checks the key; it also refuses a value of more than
    64 KiB, which is not modelled, so statements on this branch are
    conditional on its answer. *)
Definition shorten (cors : list (string * string)) (env : Platform) (req : Request)
    (kv : Kv) : Outcome Reply * Kv :=
  match body_url req with
  | Throws e => (Throws e, kv)
  | Returns url =>
      let shortId := JS.slice 0 6 (randomUUID env) in
      if fitsWrite ["urls"; shortId] then
        (Returns (Made (BodyJson (JObj [("shortId", JStr shortId)])) 200
                       (("Content-Type", "application/json") :: cors)),
         <[ ["urls"; shortId] := mkEntry url ]> kv)
      else (Throws TypeError, kv)
  end.

(** The [GET /{shortId}] branch. *)
Definition resolve (cors : list (string * string)) (req : Request)
    (kv : Kv) : Outcome Reply * Kv :=
  let shortId := JS.slice_from 1 (pathname req) in
  if fitsRead ["urls"; shortId] then
    match kv !! ["urls"; shortId] with
    | Some result => (Returns (RedirectTo (url result) 302), kv)
    | None => (Returns (Made (BodyText "URL not found") 404 cors), kv)
    end
  else (Throws TypeError, kv).

Definition serveFile (cors : list (string * string)) (env : Platform)
    (path contentType : string) (kv : Kv) : Outcome Reply * Kv :=
  match readTextFile env path with
  | Some text => (Returns (Made (BodyText text) 200 (("Content-Type", contentType) :: cors)), kv)
  | None => (Throws (NotFound path), kv)
  end.

(** The branches the two revisions share. *)
Definition routes (cors : list (string * string)) (env : Platform) (req : Request)
    (kv : Kv) : Outcome Reply * Kv :=
  if String.eqb (method req) "POST" && String.eqb (pathname req) "/shorten" then
    shorten cors env req kv
  else if String.eqb (method req) "GET" && JS.startsWith (pathname req) "/" then
    resolve cors req kv
  else if String.eqb (method req) "GET" && String.eqb (pathname req) "/" then
    serveFile cors env "./index.html" "text/html" kv
  else if String.eqb (method req) "GET" && String.eqb (pathname req) "/styles.css" then
    serveFile cors env "./styles.css" "text/css" kv
  else if String.eqb (method req) "GET" && String.eqb (pathname req) "/script.js" then
    serveFile cors env "./script.js" "application/javascript" kv
  else (Returns (Made (BodyText "Not Found") 404 cors), kv).

(** The revision with CORS headers and an OPTIONS branch. *)
Definition handlerCors (env : Platform) (req : Request) (kv : Kv) : Outcome Reply * Kv :=
  if String.eqb (method req) "OPTIONS" then (Returns (Made BodyNull 200 corsHeaders), kv)
  else routes corsHeaders env req kv.

(** The first revision: no CORS headers, no OPTIONS branch. *)
Definition handlerPlain (env : Platform) (req : Request) (kv : Kv) : Outcome Reply * Kv :=
  routes [] env req kv.

(** [Server.#respond] around one of them. *)
Definition respond (h : Platform -> Request -> Kv -> Outcome Reply * Kv)
    (env : Platform) (req : Request) (kv : Kv) : Reply * Kv :=
  match h env req kv with
  | (Returns r, kv') => (r, kv')
  | (Throws e, kv') => (Made (BodyText "Internal Server Error") 500 [], kv')
  end.

End Legacy.

(** ** The accept loop of the server *)

Module Accept.

Definition INITIAL_ACCEPT_BACKOFF_DELAY : Z := 5.
Definition MAX_ACCEPT_BACKOFF_DELAY : Z := 1000.

(** What one [await listener.accept()] of the loop of [Server.#accept]
    does: it yields a connection, fails with one of the errors the loop
    treats as transient, or fails with another error, which the loop
    rethrows. *)
Inductive AcceptResult : Type := Accepted | Transient | Fatal.

(** The new value of [acceptBackoffDelay] after a transient error.
    [None] is [undefined]; [!acceptBackoffDelay] holds of it and of 0. *)
Definition backoff (acceptBackoffDelay : option Z) : Z :=
  let d :=
    match acceptBackoffDelay with
    | None => INITIAL_ACCEPT_BACKOFF_DELAY
    | Some v => if v =? 0 then INITIAL_ACCEPT_BACKOFF_DELAY else v * 2
    end in
  if d >=? MAX_ACCEPT_BACKOFF_DELAY then MAX_ACCEPT_BACKOFF_DELAY else d.

(** The delays the loop waits, in milliseconds, over a sequence of
    accept results, from a given [acceptBackoffDelay]. *)
Fixpoint delays (results : list AcceptResult) (acceptBackoffDelay : option Z) : list Z :=
  match results with
  | [] => []
  | Accepted :: rest => delays rest None
  | Transient :: rest =>
      let d := backoff acceptBackoffDelay in
      d :: delays rest (Some d)
  | Fatal :: _ => []
  end.

End Accept.

(** ** String lemmas *)

Lemma isPrefix_spec (p s : string) :
  JS.isPrefix p s = true <-> exists post, s = p +:+ post.
Proof.
  revert s. induction p as [|a p IH]; intros s; simpl.
  - split; [intros _; exists s; reflexivity | reflexivity].
  - destruct s as [|b s].
    + split; [discriminate | intros [post H]; discriminate H].
    + rewrite andb_true_iff, Ascii.eqb_eq, IH. split.
      * intros [-> [post ->]]. exists post. reflexivity.
      * intros [post H]. injection H as -> ->. split; [reflexivity | eauto].
Qed.

Lemma includes_spec (s needle : string) :
  JS.includes s needle = true <-> exists pre post, s = pre +:+ needle +:+ post.
Proof.
  induction s as [|c s IH]; simpl; rewrite orb_true_iff, isPrefix_spec.
  - split.
    + intros [[post H] | H]; [| discriminate]. exists "", post. exact H.
    + intros [pre [post H]]. left. destruct pre as [|c pre]; [| discriminate H].
      exists post. exact H.
  - rewrite IH. split.
    + intros [[post H] | [pre [post H]]].
      * exists "", post. exact H.
      * exists (String c pre), post. rewrite H. reflexivity.
    + intros [pre [post H]]. destruct pre as [|c' pre].
      * left. exists post. exact H.
      * right. injection H as _ H. exists pre, post. exact H.
Qed.

(** ** The handler, branch by branch *)

Lemma fitsWrite_fitsRead (key : list string) : fitsWrite key = true -> fitsRead key = true.
Proof.
  unfold fitsWrite, fitsRead, MAX_WRITE_KEY_SIZE_BYTES, MAX_READ_KEY_SIZE_BYTES.
  intros H. apply Nat.leb_le in H. apply Nat.leb_le. lia.
Qed.

(** [POST /shorten] with a body [{ "url": u }] whose [url] is a string. *)
Lemma handler_shorten (env : Platform) (u : string) (kv : Kv) :
  handler env (shortenUrl u) kv =
    if JS.includes u ".deno.dev" then (Returns domainLoopResponse, kv)
    else if fitsRead ["urls"; u] then
      match kv !! ["urls"; u] with
      | Some e => (Returns (shortIdResponse (shortId e)), kv)
      | None =>
          if fitsWrite ["urls"; u] then
            (Returns (shortIdResponse (candidate env)),
             <[ ["urls"; u] := mkEntry (candidate env) u ]> kv)
          else (Throws TypeError, kv)
      end
    else (Throws TypeError, kv).
Proof.
  unfold handler, shortenUrl, postShorten, shorten, bind.
  cbn -[JS.slice JS.includes fitsRead fitsWrite].
  destruct (JS.includes u ".deno.dev"); [reflexivity |].
  cbn -[JS.slice fitsRead fitsWrite]. unfold kv_get, kv_set.
  destruct (fitsRead ["urls"; u]); [| reflexivity].
  destruct (kv !! ["urls"; u]); [reflexivity |].
  destruct (fitsWrite ["urls"; u]); reflexivity.
Qed.

Lemma respond_shorten (env : Platform) (u : string) (kv : Kv) :
  respond env (shortenUrl u) kv =
    if JS.includes u ".deno.dev" then (domainLoopResponse, kv)
    else if fitsRead ["urls"; u] then
      match kv !! ["urls"; u] with
      | Some e => (shortIdResponse (shortId e), kv)
      | None =>
          if fitsWrite ["urls"; u] then
            (shortIdResponse (candidate env),
             <[ ["urls"; u] := mkEntry (candidate env) u ]> kv)
          else (onError TypeError, kv)
      end
    else (onError TypeError, kv).
Proof.
  unfold respond. rewrite handler_shorten.
  destruct (JS.includes u ".deno.dev"); [reflexivity |].
  destruct (fitsRead ["urls"; u]); [| reflexivity].
  destruct (kv !! ["urls"; u]); [reflexivity |].
  destruct (fitsWrite ["urls"; u]); reflexivity.
Qed.

(** The same for a long URL that passes the domain check and whose key
    the store accepts. *)
Lemma respond_shorten_fits (env : Platform) (u : string) (kv : Kv) :
  JS.includes u ".deno.dev" = false ->
  fitsWrite ["urls"; u] = true ->
  respond env (shortenUrl u) kv =
    match kv !! ["urls"; u] with
    | Some e => (shortIdResponse (shortId e), kv)
    | None =>
        (shortIdResponse (candidate env),
         <[ ["urls"; u] := mkEntry (candidate env) u ]> kv)
    end.
Proof.
  intros Hok Hfit. rewrite respond_shorten, Hok, Hfit, (fitsWrite_fitsRead _ Hfit).
  reflexivity.
Qed.

Lemma slice_slash (id : string) : JS.slice_from 1 ("/" +:+ id) = id.
Proof. reflexivity. Qed.

Lemma startsWith_slash (id : string) : JS.startsWith ("/" +:+ id) "/" = true.
Proof. reflexivity. Qed.

(** [GET] on a path that starts with a slash. *)
Lemma handler_visit (env : Platform) (id : string) (kv : Kv) :
  handler env (visit id) kv =
    if fitsRead ["urls"; id] then
      match kv !! ["urls"; id] with
      | Some e => (Returns (Redirect (url e) 302), kv)
      | None => (Returns urlNotFoundResponse, kv)
      end
    else (Throws TypeError, kv).
Proof.
  unfold handler, visit, getPath, resolve, bind, kv_get.
  cbn -[JS.startsWith JS.slice_from fitsRead]. rewrite startsWith_slash, slice_slash.
  destruct (fitsRead ["urls"; id]); [| reflexivity].
  destruct (kv !! ["urls"; id]); reflexivity.
Qed.

Lemma respond_visit (env : Platform) (id : string) (kv : Kv) :
  fitsRead ["urls"; id] = true ->
  respond env (visit id) kv =
    match kv !! ["urls"; id] with
    | Some e => (Redirect (url e) 302, kv)
    | None => (urlNotFoundResponse, kv)
    end.
Proof.
  intros Hfit. unfold respond. rewrite handler_visit, Hfit.
  destruct (kv !! ["urls"; id]); reflexivity.
Qed.

Lemma key_inj (a b : string) : ["urls"; a] = ["urls"; b] <-> a = b.
Proof. split; [intros H; injection H; auto | intros ->; reflexivity]. Qed.

(** The only record a map holds under a key it has. *)
Lemma filter_key_singleton (kv : Kv) (k : list string) (e : Entry) :
  kv !! k = Some e ->
  filter (fun p : list string * Entry => p.1 = k) kv = {[ k := e ]}.
Proof.
  intros Hk. apply map_eq. intros i.
  destruct (decide (i = k)) as [-> | Hne].
  - rewrite lookup_singleton_eq. apply map_lookup_filter_Some. auto.
  - rewrite lookup_singleton_ne by congruence.
    apply map_lookup_filter_None. right. intros x _ Heq. exact (Hne Heq).
Qed.

(** After a successful shorten of [u] the store has a record under [u]
    carrying the identifier that was returned. *)
Lemma shorten_records (env : Platform) (u : string) (kv : Kv) (id : string) :
  (respond env (shortenUrl u) kv).1 = shortIdResponse id ->
  exists e : Entry,
    (respond env (shortenUrl u) kv).2 !! ["urls"; u] = Some e /\ shortId e = id.
Proof.
  rewrite respond_shorten.
  destruct (JS.includes u ".deno.dev"); [discriminate |].
  destruct (fitsRead ["urls"; u]); [| discriminate].
  destruct (kv !! ["urls"; u]) as [e |] eqn:Hget.
  - cbn [fst snd]. intros [= <-]. exists e. auto.
  - destruct (fitsWrite ["urls"; u]); [| discriminate].
    cbn [fst snd]. intros [= <-].
    exists (mkEntry (candidate env) u). rewrite lookup_insert_eq. auto.
Qed.

(** ** Scenario used below: one URL shortened on an empty store *)

Example candidate_uuidA : candidate (mkPlatform uuidA noFiles) = "a1b2c3".
Proof. reflexivity. Qed.

Lemma scenario_store :
  (respond (mkPlatform uuidA noFiles) (shortenUrl "https://example.com") ∅).2
  = <[ ["urls"; "https://example.com"] := mkEntry "a1b2c3" "https://example.com" ]> ∅.
Proof.
  rewrite respond_shorten_fits by reflexivity.
  rewrite (lookup_empty (M := gmap (list string))). reflexivity.
Qed.

Lemma scenario_reply :
  (respond (mkPlatform uuidA noFiles) (shortenUrl "https://example.com") ∅).1
  = shortIdResponse "a1b2c3".
Proof.
  rewrite respond_shorten_fits by reflexivity.
  rewrite (lookup_empty (M := gmap (list string))). reflexivity.
Qed.

Lemma scenario_forward :
  (<[ ["urls"; "https://example.com"] := mkEntry "a1b2c3" "https://example.com" ]> ∅ : Kv)
    !! ["urls"; "https://example.com"]
  = Some (mkEntry "a1b2c3" "https://example.com").
Proof. apply lookup_insert_eq. Qed.

Lemma scenario_reverse :
  (<[ ["urls"; "https://example.com"] := mkEntry "a1b2c3" "https://example.com" ]> ∅ : Kv)
    !! ["urls"; "a1b2c3"] = None.
Proof. rewrite lookup_insert_ne by discriminate. apply lookup_empty. Qed.

(** * Round trip *)

(** C1. Shortening [https://example.com] on an empty store answers with
    the identifier [a1b2c3]; visiting [/a1b2c3] afterwards finds no
    record and answers 404 "URL not found" instead of redirecting: the
    record was written under the long URL only. *)
Theorem roundtrip_misses :
  let env := mkPlatform uuidA noFiles in
  let u := "https://example.com" in
  let kv1 := (respond env (shortenUrl u) ∅).2 in
  (respond env (shortenUrl u) ∅).1 = shortIdResponse "a1b2c3" /\
  kv1 !! ["urls"; "a1b2c3"] = None /\
  (respond env (visit "a1b2c3") kv1).1 = urlNotFoundResponse /\
  status_of (respond env (visit "a1b2c3") kv1).1 = 404.
Proof.
  cbv zeta. rewrite scenario_reply, scenario_store.
  rewrite respond_visit by reflexivity. rewrite scenario_reverse.
  repeat split.
Qed.

(** * Bidirectional consistency *)

(** C2. The empty store is bidirectionally consistent; the store after
    one shorten request is not: the forward record for
    [https://example.com] names [a1b2c3], and nothing is kept under
    [a1b2c3]. *)
Theorem shorten_breaks_bidirectional :
  let env := mkPlatform uuidA noFiles in
  let kv1 := (respond env (shortenUrl "https://example.com") ∅).2 in
  bidirectional ∅ /\
  kv1 !! ["urls"; "https://example.com"] = Some (mkEntry "a1b2c3" "https://example.com") /\
  kv1 !! ["urls"; "a1b2c3"] = None /\
  ~ bidirectional kv1.
Proof.
  cbv zeta. rewrite scenario_store.
  split; [| split; [exact scenario_forward | split; [exact scenario_reverse |]]].
  - intros u e He. rewrite lookup_empty in He. discriminate.
  - intros Hbi. destruct (Hbi _ _ scenario_forward) as [r [Hr _]].
    cbn [shortId] in Hr. rewrite scenario_reverse in Hr. discriminate.
Qed.

Lemma fitsWrite_le (key : list string) :
  (keySize key <= MAX_WRITE_KEY_SIZE_BYTES)%nat -> fitsWrite key = true.
Proof. intros H. apply Nat.leb_le. exact H. Qed.

(** * Idempotence *)

(** C3. For a long URL without the [.deno.dev] substring whose key the
    store accepts, two shorten requests in a row return the same
    identifier, the second leaves the store as the first left it, and the
    store then holds exactly one record under that long URL, carrying the
    identifier. *)
Theorem shorten_idempotent (env1 env2 : Platform) (u : string) (kv : Kv) :
  JS.includes u ".deno.dev" = false ->
  (keySize ["urls"; u] <= MAX_WRITE_KEY_SIZE_BYTES)%nat ->
  exists (id : string) (kv1 : Kv),
    respond env1 (shortenUrl u) kv = (shortIdResponse id, kv1) /\
    respond env2 (shortenUrl u) kv1 = (shortIdResponse id, kv1) /\
    size (forwardRecords u kv1) = 1%nat /\
    exists e : Entry, kv1 !! ["urls"; u] = Some e /\ shortId e = id.
Proof.
  intros Hok Hfit. apply fitsWrite_le in Hfit.
  assert (Hstep : exists (e : Entry) (kv1 : Kv),
             respond env1 (shortenUrl u) kv = (shortIdResponse (shortId e), kv1) /\
             kv1 !! ["urls"; u] = Some e).
  { rewrite (respond_shorten_fits _ _ _ Hok Hfit).
    destruct (kv !! ["urls"; u]) as [e |] eqn:Hget.
    - exists e, kv. auto.
    - exists (mkEntry (candidate env1) u), (<[ ["urls"; u] := mkEntry (candidate env1) u ]> kv).
      split; [reflexivity | apply lookup_insert_eq]. }
  destruct Hstep as (e & kv1 & Hfirst & Hget).
  exists (shortId e), kv1. split; [exact Hfirst |]. split.
  - rewrite (respond_shorten_fits _ _ _ Hok Hfit), Hget. reflexivity.
  - split; [| exists e; auto].
    unfold forwardRecords. rewrite (filter_key_singleton _ _ _ Hget).
    apply map_size_singleton.
Qed.

(** Idempotence on the empty store, for [https://example.com]. *)
Lemma shorten_idempotent_witness :
  JS.includes "https://example.com" ".deno.dev" = false /\
  (keySize ["urls"; "https://example.com"] <= MAX_WRITE_KEY_SIZE_BYTES)%nat /\
  exists (id : string) (kv1 : Kv),
    respond (mkPlatform uuidA noFiles) (shortenUrl "https://example.com") ∅
      = (shortIdResponse id, kv1) /\
    respond (mkPlatform uuidC noFiles) (shortenUrl "https://example.com") kv1
      = (shortIdResponse id, kv1) /\
    size (forwardRecords "https://example.com" kv1) = 1%nat /\
    exists e : Entry, kv1 !! ["urls"; "https://example.com"] = Some e /\ shortId e = id.
Proof.
  split; [reflexivity |].
  assert (Hfit : (keySize ["urls"; "https://example.com"] <= MAX_WRITE_KEY_SIZE_BYTES)%nat)
    by (apply Nat.leb_le; reflexivity).
  split; [exact Hfit |].
  apply (shorten_idempotent (mkPlatform uuidA noFiles) (mkPlatform uuidC noFiles)
           "https://example.com" ∅); [reflexivity | exact Hfit].
Defined.

(** * Domain-loop rejection *)

(** C4. A long URL that contains [.deno.dev] anywhere is answered with
    status 400 and the store is left as it was. *)
Theorem domain_loop_rejected (env : Platform) (u : string) (kv : Kv) :
  (exists pre post : string, u = pre +:+ ".deno.dev" +:+ post) ->
  respond env (shortenUrl u) kv = (domainLoopResponse, kv) /\
  status_of (respond env (shortenUrl u) kv).1 = 400.
Proof.
  intros Hsub. apply includes_spec in Hsub.
  rewrite respond_shorten, Hsub. split; reflexivity.
Qed.

(** Rejection of [https://iec.deno.dev/x]. *)
Lemma domain_loop_rejected_witness :
  (exists pre post : string, "https://iec.deno.dev/x" = pre +:+ ".deno.dev" +:+ post) /\
  respond (mkPlatform uuidA noFiles) (shortenUrl "https://iec.deno.dev/x") ∅
    = (domainLoopResponse, ∅) /\
  status_of (respond (mkPlatform uuidA noFiles) (shortenUrl "https://iec.deno.dev/x") ∅).1 = 400.
Proof.
  split; [exists "https://iec", "/x"; reflexivity |].
  apply (domain_loop_rejected (mkPlatform uuidA noFiles) "https://iec.deno.dev/x" ∅).
  exists "https://iec", "/x". reflexivity.
Defined.

(** * Collision handling *)

Lemma takenStore_eq : takenStore = <[ ["urls"; "a1b2c3"] := mkEntry "0f9e8d" "a1b2c3" ]> ∅.
Proof.
  unfold takenStore. rewrite respond_shorten_fits by reflexivity.
  rewrite (lookup_empty (M := gmap (list string))). reflexivity.
Qed.

(** C5, as stated, fails: the store holds a record under [a1b2c3] for
    another long URL when [a1b2c3] is drawn for [https://example.com];
    the handler neither retries nor fails, it answers 200 with [a1b2c3]
    and writes the record. *)
Lemma collision_committed_unchecked :
  let env := mkPlatform uuidA noFiles in
  let u := "https://example.com" in
  candidate env = "a1b2c3" /\
  (exists r : Entry, takenStore !! ["urls"; candidate env] = Some r /\ url r <> u) /\
  takenStore !! ["urls"; u] = None /\
  respond env (shortenUrl u) takenStore
    = (shortIdResponse "a1b2c3", <[ ["urls"; u] := mkEntry "a1b2c3" u ]> takenStore) /\
  status_of (respond env (shortenUrl u) takenStore).1 = 200.
Proof.
  cbv zeta.
  assert (Hnew : takenStore !! ["urls"; "https://example.com"] = None).
  { rewrite takenStore_eq, lookup_insert_ne by discriminate. apply lookup_empty. }
  split; [reflexivity |]. split.
  - exists (mkEntry "0f9e8d" "a1b2c3"). split; [| discriminate].
    rewrite takenStore_eq. apply lookup_insert_eq.
  - split; [exact Hnew |]. rewrite respond_shorten_fits by reflexivity.
    rewrite Hnew. split; reflexivity.
Qed.

(** C5, amended. For a long URL without [.deno.dev], without a record
    and whose key the store accepts, the handler commits the one
    identifier it draws, whatever the store holds: it answers 200 with
    that identifier, writes the record under the long URL and changes no
    other key. *)
Theorem shorten_commits_first_candidate (env : Platform) (u : string) (kv : Kv) :
  JS.includes u ".deno.dev" = false ->
  (keySize ["urls"; u] <= MAX_WRITE_KEY_SIZE_BYTES)%nat ->
  kv !! ["urls"; u] = None ->
  handler env (shortenUrl u) kv
    = (Returns (shortIdResponse (candidate env)),
       <[ ["urls"; u] := mkEntry (candidate env) u ]> kv) /\
  respond env (shortenUrl u) kv
    = (shortIdResponse (candidate env),
       <[ ["urls"; u] := mkEntry (candidate env) u ]> kv) /\
  status_of (respond env (shortenUrl u) kv).1 = 200 /\
  forall k : list string,
    k <> ["urls"; u] -> (respond env (shortenUrl u) kv).2 !! k = kv !! k.
Proof.
  intros Hok Hfit Hnew. apply fitsWrite_le in Hfit.
  rewrite handler_shorten, (respond_shorten_fits _ _ _ Hok Hfit).
  rewrite Hok, Hfit, (fitsWrite_fitsRead _ Hfit), Hnew.
  repeat split. intros k Hk. cbn [snd]. apply lookup_insert_ne. congruence.
Qed.

(** The commit of [a1b2c3] on a store that already keeps a record under [a1b2c3]. *)
Lemma shorten_commits_first_candidate_witness :
  JS.includes "https://example.com" ".deno.dev" = false /\
  (keySize ["urls"; "https://example.com"] <= MAX_WRITE_KEY_SIZE_BYTES)%nat /\
  takenStore !! ["urls"; "https://example.com"] = None /\
  respond (mkPlatform uuidA noFiles) (shortenUrl "https://example.com") takenStore
    = (shortIdResponse (candidate (mkPlatform uuidA noFiles)),
       <[ ["urls"; "https://example.com"] :=
            mkEntry (candidate (mkPlatform uuidA noFiles)) "https://example.com" ]> takenStore).
Proof.
  assert (Hnew : takenStore !! ["urls"; "https://example.com"] = None).
  { rewrite takenStore_eq, lookup_insert_ne by discriminate. apply lookup_empty. }
  assert (Hfit : (keySize ["urls"; "https://example.com"] <= MAX_WRITE_KEY_SIZE_BYTES)%nat)
    by (apply Nat.leb_le; reflexivity).
  split; [reflexivity |]. split; [exact Hfit |]. split; [exact Hnew |].
  apply (shorten_commits_first_candidate (mkPlatform uuidA noFiles)
           "https://example.com" takenStore); [reflexivity | exact Hfit | exact Hnew].
Defined.

(** * Not found *)

(** C6. After [https://example.com] was shortened to [a1b2c3] on an
    empty store, visiting the long URL itself, which was never handed
    out as an identifier, redirects with 302, and visiting the
    identifier [a1b2c3] that was handed out answers 404
    "URL not found". *)
Theorem resolve_keyed_by_long_url :
  let env := mkPlatform uuidA noFiles in
  let u := "https://example.com" in
  let kv1 := (respond env (shortenUrl u) ∅).2 in
  (respond env (shortenUrl u) ∅).1 = shortIdResponse "a1b2c3" /\
  respond env (visit u) kv1 = (Redirect u 302, kv1) /\
  respond env (visit "a1b2c3") kv1 = (urlNotFoundResponse, kv1).
Proof.
  cbv zeta. rewrite scenario_reply, scenario_store.
  rewrite !respond_visit by reflexivity.
  rewrite scenario_forward, scenario_reverse. repeat split.
Qed.

(** * Uniqueness *)

(** What a shorten request can do to the store: nothing, or insert the
    record for its long URL under a key that was free. *)
Lemma shorten_store (env : Platform) (u : string) (kv : Kv) :
  (respond env (shortenUrl u) kv).2 = kv \/
  (kv !! ["urls"; u] = None /\ fitsWrite ["urls"; u] = true /\
   (respond env (shortenUrl u) kv).2 = <[ ["urls"; u] := mkEntry (candidate env) u ]> kv).
Proof.
  rewrite respond_shorten.
  destruct (JS.includes u ".deno.dev"); [left; reflexivity |].
  destruct (fitsRead ["urls"; u]); [| left; reflexivity].
  destruct (kv !! ["urls"; u]) as [e |] eqn:Hget; [left; reflexivity |].
  destruct (fitsWrite ["urls"; u]); [right; auto | left; reflexivity].
Qed.

Lemma shorten_keeps (env : Platform) (u : string) (kv : Kv) (k : list string) (e : Entry) :
  kv !! k = Some e -> (respond env (shortenUrl u) kv).2 !! k = Some e.
Proof.
  intros Hk. destruct (shorten_store env u kv) as [-> | (Hget & _ & ->)]; [exact Hk |].
  rewrite lookup_insert_ne; [exact Hk |].
  intros <-. rewrite Hget in Hk. discriminate.
Qed.

(** Shortening keeps the identifiers of the store pairwise distinct as
    long as the identifier drawn for a new long URL is fresh. *)
Lemma shorten_preserves_injective (env : Platform) (u : string) (kv : Kv) :
  ids_injective kv -> draw_ok env u kv ->
  ids_injective (respond env (shortenUrl u) kv).2.
Proof.
  intros Hinj Hdraw.
  destruct (shorten_store env u kv) as [-> | (Hget & _ & ->)]; [exact Hinj |].
  specialize (Hdraw Hget).
  intros k1 k2 e1 e2 H1 H2 Hid.
  apply lookup_insert_Some in H1 as [[<- <-] | [Hne1 H1]];
    apply lookup_insert_Some in H2 as [[<- <-] | [Hne2 H2]].
  - reflexivity.
  - exfalso. apply (Hdraw _ _ H2). symmetry. exact Hid.
  - exfalso. apply (Hdraw _ _ H1). exact Hid.
  - exact (Hinj _ _ _ _ H1 H2 Hid).
Qed.

Lemma ids_injective_empty : ids_injective ∅.
Proof. intros k1 k2 e1 e2 H1. rewrite lookup_empty in H1. discriminate. Qed.

Lemma fresh_empty (id : string) : fresh id ∅.
Proof. intros k e H. rewrite lookup_empty in H. discriminate. Qed.

(** C7, as stated, fails: two different long URLs are shortened one after
    the other, the two UUIDs drawn differ but agree on their first six
    characters, and both requests answer with the identifier [a1b2c3]. *)
Lemma same_prefix_same_id :
  let u1 := "https://example.com" in
  let u2 := "https://example.org" in
  let kv1 := (respond (mkPlatform uuidA noFiles) (shortenUrl u1) ∅).2 in
  u1 <> u2 /\ uuidA <> uuidB /\
  (respond (mkPlatform uuidA noFiles) (shortenUrl u1) ∅).1 = shortIdResponse "a1b2c3" /\
  (respond (mkPlatform uuidB noFiles) (shortenUrl u2) kv1).1 = shortIdResponse "a1b2c3".
Proof.
  cbv zeta. rewrite scenario_reply, scenario_store.
  split; [discriminate |]. split; [discriminate |]. split; [reflexivity |].
  rewrite respond_shorten_fits by reflexivity.
  rewrite lookup_insert_ne by discriminate.
  rewrite (lookup_empty (M := gmap (list string))). reflexivity.
Qed.

(** C7, amended. When two distinct long URLs are shortened one after the
    other and both requests are answered with an identifier, the two
    identifiers are distinct, provided the identifiers already in the
    store are pairwise distinct and each identifier drawn for a new long
    URL is fresh in the store at that time. *)
Theorem distinct_urls_distinct_ids (env1 env2 : Platform) (u1 u2 : string) (kv : Kv)
    (id1 id2 : string) :
  u1 <> u2 ->
  ids_injective kv ->
  draw_ok env1 u1 kv ->
  draw_ok env2 u2 (respond env1 (shortenUrl u1) kv).2 ->
  (respond env1 (shortenUrl u1) kv).1 = shortIdResponse id1 ->
  (respond env2 (shortenUrl u2) (respond env1 (shortenUrl u1) kv).2).1
    = shortIdResponse id2 ->
  id1 <> id2.
Proof.
  intros Hne Hinj Hd1 Hd2 Hr1 Hr2.
  destruct (shorten_records env1 u1 kv id1 Hr1) as (e1 & Hg1 & Hid1).
  set (kv1 := (respond env1 (shortenUrl u1) kv).2) in *.
  destruct (shorten_records env2 u2 kv1 id2 Hr2) as (e2 & Hg2 & Hid2).
  intros Heq. apply Hne. apply key_inj.
  assert (Hinj2 : ids_injective (respond env2 (shortenUrl u2) kv1).2).
  { apply shorten_preserves_injective; [| exact Hd2].
    apply shorten_preserves_injective; assumption. }
  apply (Hinj2 _ _ e1 e2); [apply shorten_keeps; exact Hg1 | exact Hg2 | congruence].
Qed.

(** Two long URLs shortened on the empty store with UUIDs of different prefixes. *)
Lemma distinct_urls_distinct_ids_witness :
  (respond (mkPlatform uuidA noFiles) (shortenUrl "https://example.com") ∅).1
    = shortIdResponse "a1b2c3" /\
  (respond (mkPlatform uuidC noFiles) (shortenUrl "https://example.org")
     (respond (mkPlatform uuidA noFiles) (shortenUrl "https://example.com") ∅).2).1
    = shortIdResponse "0f9e8d" /\
  "a1b2c3" <> "0f9e8d".
Proof.
  assert (H2 : (respond (mkPlatform uuidC noFiles) (shortenUrl "https://example.org")
                  (respond (mkPlatform uuidA noFiles) (shortenUrl "https://example.com") ∅).2).1
               = shortIdResponse "0f9e8d").
  { rewrite scenario_store, respond_shorten_fits by reflexivity.
    rewrite lookup_insert_ne by discriminate.
    rewrite (lookup_empty (M := gmap (list string))). reflexivity. }
  split; [exact scenario_reply |]. split; [exact H2 |].
  apply (distinct_urls_distinct_ids (mkPlatform uuidA noFiles) (mkPlatform uuidC noFiles)
           "https://example.com" "https://example.org" ∅ "a1b2c3" "0f9e8d").
  - discriminate.
  - exact ids_injective_empty.
  - intros _. apply fresh_empty.
  - intros _. rewrite scenario_store. intros k e Hk.
    apply lookup_insert_Some in Hk as [[_ <-] | [_ Hk]].
    + discriminate.
    + rewrite lookup_empty in Hk. discriminate.
  - exact scenario_reply.
  - exact H2.
Defined.

(** * A body without [url] *)

(** C8, as stated, fails: [POST /shorten] with the body [{}] makes the
    handler throw, and the server answers 500 "Internal Server Error",
    not 400. *)
Lemma missing_url_answers_500 :
  let env := mkPlatform uuidA noFiles in
  (handler env (postShorten (JObj [])) ∅).1 = Throws TypeError /\
  (respond env (postShorten (JObj [])) ∅).1
    = NewResponse (BodyText "Internal Server Error") 500 [] /\
  status_of (respond env (postShorten (JObj [])) ∅).1 <> 400.
Proof. cbv zeta. repeat split. discriminate. Qed.

(** C8, amended. A [POST /shorten] whose JSON body is an object without
    a [url] member is not validated: the handler throws a [TypeError]
    at [longUrl.includes], the store is left as it was, and the server
    answers with status 500 and the body "Internal Server Error". *)
Theorem missing_url_throws (env : Platform) (fields : list (string * JSON)) (kv : Kv) :
  get_field "url" fields = None ->
  handler env (postShorten (JObj fields)) kv = (Throws TypeError, kv) /\
  respond env (postShorten (JObj fields)) kv
    = (NewResponse (BodyText "Internal Server Error") 500 [], kv) /\
  status_of (respond env (postShorten (JObj fields)) kv).1 = 500.
Proof.
  intros Hmiss.
  assert (Hthrow : handler env (postShorten (JObj fields)) kv = (Throws TypeError, kv)).
  { unfold handler, postShorten, shorten, bind. cbn -[get_field].
    rewrite Hmiss. reflexivity. }
  unfold respond. rewrite Hthrow. repeat split.
Qed.

(** A body that names the URL [link] instead of [url]. *)
Lemma missing_url_throws_witness :
  get_field "url" [("link", JStr "https://example.com")] = None /\
  handler (mkPlatform uuidA noFiles)
          (postShorten (JObj [("link", JStr "https://example.com")])) ∅
    = (Throws TypeError, ∅) /\
  respond (mkPlatform uuidA noFiles)
          (postShorten (JObj [("link", JStr "https://example.com")])) ∅
    = (NewResponse (BodyText "Internal Server Error") 500 [], ∅) /\
  status_of (respond (mkPlatform uuidA noFiles)
               (postShorten (JObj [("link", JStr "https://example.com")])) ∅).1 = 500.
Proof.
  split; [reflexivity |].
  apply (missing_url_throws (mkPlatform uuidA noFiles)
           [("link", JStr "https://example.com")] ∅).
  reflexivity.
Defined.

(** * Resolve has no side effects *)

Lemma resolve_store (req : Request) (kv : Kv) : (resolve req kv).2 = kv.
Proof.
  unfold resolve, bind, kv_get.
  destruct (fitsRead ["urls"; JS.slice_from 1 (pathname req)]); [| reflexivity].
  destruct (kv !! ["urls"; JS.slice_from 1 (pathname req)]); reflexivity.
Qed.

Lemma serveFile_store (env : Platform) (path contentType : string) (kv : Kv) :
  (serveFile env path contentType kv).2 = kv.
Proof. unfold serveFile. destruct (readTextFile env path); reflexivity. Qed.

Lemma staticFiles_store (env : Platform) (req : Request) (kv : Kv) :
  (staticFiles env req kv).2 = kv.
Proof.
  unfold staticFiles.
  repeat match goal with
         | |- context [if ?b then _ else _] => destruct b
         end; try apply serveFile_store; reflexivity.
Qed.

Lemma respond_store (env : Platform) (req : Request) (kv : Kv) :
  (respond env req kv).2 = (handler env req kv).2.
Proof. unfold respond. destruct (handler env req kv) as [[r | e] kv']; reflexivity. Qed.

(** C9. Whatever the path, handling a GET request leaves the store as it
    was, for the handler and for the server around it. *)
Theorem get_leaves_store (env : Platform) (req : Request) (kv : Kv) :
  method req = "GET" ->
  (handler env req kv).2 = kv /\ (respond env req kv).2 = kv.
Proof.
  intros Hget. rewrite respond_store.
  assert (H : (handler env req kv).2 = kv); [| split; exact H].
  unfold handler. rewrite Hget. cbn [String.eqb Ascii.eqb Bool.eqb andb].
  destruct (JS.startsWith (pathname req) "/").
  - apply resolve_store.
  - apply staticFiles_store.
Qed.

(** A visit on a store with one record. *)
Lemma get_leaves_store_witness :
  method (visit "a1b2c3") = "GET" /\
  (handler (mkPlatform uuidA noFiles) (visit "a1b2c3") takenStore).2 = takenStore /\
  (respond (mkPlatform uuidA noFiles) (visit "a1b2c3") takenStore).2 = takenStore.
Proof.
  split; [reflexivity |].
  apply (get_leaves_store (mkPlatform uuidA noFiles) (visit "a1b2c3") takenStore).
  reflexivity.
Defined.

(** * The resolve branch shadows the static files *)

Lemma startsWith_static (p : string) :
  JS.startsWith p "/" = false ->
  String.eqb p "/" = false /\ String.eqb p "/styles.css" = false /\
  String.eqb p "/script.js" = false.
Proof.
  intros Hp. repeat split; apply String.eqb_neq; intros ->; discriminate Hp.
Qed.

(** The static-file branches are never taken. *)
Lemma static_branches_dead (env : Platform) (req : Request) (kv : Kv) :
  handler env req kv = handler_no_static env req kv.
Proof.
  unfold handler, handler_no_static.
  destruct (String.eqb (method req) "OPTIONS"); [reflexivity |].
  destruct (String.eqb (method req) "POST" && String.eqb (pathname req) "/shorten");
    [reflexivity |].
  destruct (String.eqb (method req) "GET") eqn:Hm; cbn [andb].
  - destruct (JS.startsWith (pathname req) "/") eqn:Hp; [reflexivity |].
    unfold staticFiles. rewrite Hm. cbn [andb].
    destruct (startsWith_static _ Hp) as (-> & -> & ->). reflexivity.
  - unfold staticFiles. rewrite Hm. reflexivity.
Qed.

(** C10. For a GET request, whose path starts with a slash as every URL
    path does, the handler is the resolve branch; so [GET /] looks up
    the empty identifier and answers 404 "URL not found" when nothing is
    kept under it, and deleting the static-file branches for [/],
    [/styles.css] and [/script.js] changes nothing. *)
Theorem get_always_resolves (env : Platform) (req : Request) (kv : Kv) :
  method req = "GET" ->
  JS.startsWith (pathname req) "/" = true ->
  handler env req kv = resolve req kv /\
  (pathname req = "/" -> kv !! ["urls"; ""] = None ->
   respond env req kv = (urlNotFoundResponse, kv)) /\
  (forall files : string -> option string,
     handler (mkPlatform (randomUUID env) files) req kv = handler env req kv) /\
  handler env req kv = handler_no_static env req kv.
Proof.
  intros Hget Hslash.
  assert (Hres : forall env', handler env' req kv = resolve req kv).
  { intros env'. unfold handler. rewrite Hget, Hslash. reflexivity. }
  split; [apply Hres |]. split; [| split].
  - intros Hroot Hnone. unfold respond. rewrite Hres.
    unfold resolve, bind, kv_get. rewrite Hroot. cbn [JS.slice_from].
    change (fitsRead ["urls"; ""]) with true. cbv iota.
    rewrite Hnone. reflexivity.
  - intros files. rewrite !Hres. reflexivity.
  - apply static_branches_dead.
Qed.

(** [GET /] on the empty store, with no file to serve. *)
Lemma get_always_resolves_witness :
  method (getPath "/") = "GET" /\
  JS.startsWith (pathname (getPath "/")) "/" = true /\
  handler (mkPlatform uuidA noFiles) (getPath "/") ∅ = resolve (getPath "/") ∅ /\
  respond (mkPlatform uuidA noFiles) (getPath "/") ∅ = (urlNotFoundResponse, ∅).
Proof.
  split; [reflexivity |]. split; [reflexivity |].
  destruct (get_always_resolves (mkPlatform uuidA noFiles) (getPath "/") ∅)
    as (Hres & Hroot & _); [reflexivity | reflexivity |].
  split; [exact Hres |]. apply Hroot; [reflexivity | apply lookup_empty].
Defined.

(** * Every request: what can happen to the store *)

(** A request leaves the store alone unless it is a [POST /shorten]
    whose body has a string [url] without [.deno.dev], without a record
    and with a key the store accepts; then one record is inserted under
    that string. *)
Lemma respond_cases (env : Platform) (req : Request) (kv : Kv) :
  (respond env req kv).2 = kv \/
  (method req = "POST" /\ pathname req = "/shorten" /\
   exists (fields : list (string * JSON)) (u : string),
     json req = Some (JObj fields) /\
     get_field "url" fields = Some (JStr u) /\
     JS.includes u ".deno.dev" = false /\
     fitsWrite ["urls"; u] = true /\
     kv !! ["urls"; u] = None /\
     respond env req kv
       = (shortIdResponse (candidate env),
          <[ ["urls"; u] := mkEntry (candidate env) u ]> kv)).
Proof.
  rewrite respond_store. unfold respond, handler.
  destruct (String.eqb (method req) "OPTIONS"); [left; reflexivity |].
  destruct (String.eqb (method req) "POST") eqn:Hm;
    destruct (String.eqb (pathname req) "/shorten") eqn:Hp; cbn [andb];
    try (left; destruct (String.eqb (method req) "GET" && JS.startsWith (pathname req) "/");
         [apply resolve_store | apply staticFiles_store]).
  apply String.eqb_eq in Hm, Hp.
  unfold shorten, bind, req_json.
  destruct (json req) as [body |] eqn:Hbody; [| left; reflexivity].
  destruct body as [| b | n | s | items | fields]; try (left; reflexivity).
  cbn [destructure_url ret].
  destruct (get_field "url" fields) as [v |] eqn:Hurl; [| left; reflexivity].
  destruct v as [| b | n | u | items | fs]; try (left; reflexivity).
  - cbn -[JS.includes JS.slice fitsRead fitsWrite].
    destruct (JS.includes u ".deno.dev") eqn:Hinc; [left; reflexivity |].
    cbn -[JS.slice fitsRead fitsWrite]. unfold kv_get, kv_set.
    destruct (fitsRead ["urls"; u]); [| left; reflexivity].
    destruct (kv !! ["urls"; u]) eqn:Hget; [left; reflexivity |].
    destruct (fitsWrite ["urls"; u]) eqn:Hfit; [| left; reflexivity].
    right. split; [exact Hm |]. split; [exact Hp |].
    exists fields, u. repeat split; auto.
  - cbn. destruct (existsb _ items); left; reflexivity.
Qed.

(** The replies the handler can return, with the branch that made each. *)
Lemma handler_returns (env : Platform) (req : Request) (kv kv' : Kv) (r : Response) :
  handler env req kv = (Returns r, kv') ->
  (method req = "OPTIONS" /\ r = NewResponse BodyNull 200 corsHeaders /\ kv' = kv) \/
  (method req = "POST" /\ pathname req = "/shorten" /\
   r = domainLoopResponse /\ kv' = kv) \/
  (method req = "POST" /\ pathname req = "/shorten" /\
   exists (fields : list (string * JSON)) (u : string) (e : Entry),
     json req = Some (JObj fields) /\ get_field "url" fields = Some (JStr u) /\
     JS.includes u ".deno.dev" = false /\
     kv' !! ["urls"; u] = Some e /\ r = shortIdResponse (shortId e)) \/
  (method req = "GET" /\ kv' = kv /\
   exists e : Entry,
     kv !! ["urls"; JS.slice_from 1 (pathname req)] = Some e /\
     r = Redirect (url e) 302) \/
  (method req = "GET" /\ kv' = kv /\
   kv !! ["urls"; JS.slice_from 1 (pathname req)] = None /\
   r = urlNotFoundResponse) \/
  (method req <> "OPTIONS" /\
   (method req = "GET" -> JS.startsWith (pathname req) "/" = false) /\
   kv' = kv /\ r = notFoundResponse).
Proof.
  rewrite static_branches_dead. unfold handler_no_static.
  destruct (String.eqb (method req) "OPTIONS") eqn:Hopt.
  { intros [= <- <-]. apply String.eqb_eq in Hopt. left. auto. }
  apply String.eqb_neq in Hopt.
  destruct (String.eqb (method req) "POST" && String.eqb (pathname req) "/shorten") eqn:Hpost.
  - apply andb_true_iff in Hpost as [Hm Hp]. apply String.eqb_eq in Hm, Hp.
    unfold shorten, bind, req_json.
    destruct (json req) as [body |] eqn:Hbody; [| discriminate].
    destruct body as [| b | n | s | items | fields]; try discriminate.
    cbn [destructure_url ret].
    destruct (get_field "url" fields) as [v |] eqn:Hurl; [| discriminate].
    destruct v as [| b | n | u | items | fs]; try discriminate.
    + cbn -[JS.includes JS.slice fitsRead fitsWrite].
      destruct (JS.includes u ".deno.dev") eqn:Hinc.
      * intros [= <- <-]. right. left. auto.
      * cbn -[JS.slice fitsRead fitsWrite]. unfold kv_get, kv_set.
        destruct (fitsRead ["urls"; u]); [| discriminate].
        destruct (kv !! ["urls"; u]) as [e |] eqn:Hget.
        -- cbn -[JS.slice]. intros [= <- <-]. right; right; left.
           split; [exact Hm |]. split; [exact Hp |]. exists fields, u, e. auto.
        -- destruct (fitsWrite ["urls"; u]); [| discriminate].
           cbn -[JS.slice]. intros [= <- <-]. right; right; left.
           split; [exact Hm |]. split; [exact Hp |].
           exists fields, u, (mkEntry (candidate env) u).
           rewrite lookup_insert_eq. auto.
    + cbn. destruct (existsb _ items); [| discriminate].
      intros [= <- <-]. right. left. auto.
  - destruct (String.eqb (method req) "GET") eqn:Hget; cbn [andb].
    + apply String.eqb_eq in Hget.
      destruct (JS.startsWith (pathname req) "/") eqn:Hsl.
      * unfold resolve, bind, kv_get.
        destruct (fitsRead ["urls"; JS.slice_from 1 (pathname req)]); [| discriminate].
        destruct (kv !! ["urls"; JS.slice_from 1 (pathname req)]) as [e |] eqn:Hk;
          intros [= <- <-]; right; right; right.
        -- left. split; [exact Hget |]. split; [reflexivity |]. exists e. auto.
        -- right. left. auto.
      * intros [= <- <-]. right. right. right. right. right. auto.
    + apply String.eqb_neq in Hget. intros [= <- <-].
      right. right. right. right. right. repeat split; auto.
      intros Hg. contradiction.
Qed.

Lemma respond_keeps (env : Platform) (req : Request) (kv : Kv)
    (k : list string) (e : Entry) :
  kv !! k = Some e -> (respond env req kv).2 !! k = Some e.
Proof.
  intros Hk.
  destruct (respond_cases env req kv)
    as [-> | (_ & _ & fields & u & _ & _ & _ & _ & Hnew & ->)]; [exact Hk |].
  cbn [snd]. rewrite lookup_insert_ne; [exact Hk |].
  intros <-. rewrite Hnew in Hk. discriminate.
Qed.

Lemma run_keeps (trace : list (Platform * Request)) (kv : Kv)
    (k : list string) (e : Entry) :
  kv !! k = Some e -> run trace kv !! k = Some e.
Proof.
  revert kv. induction trace as [| [env req] rest IH]; intros kv Hk; [exact Hk |].
  cbn [run]. apply IH. apply respond_keeps. exact Hk.
Qed.

(** X1. No sequence of requests overwrites or deletes a record: what is
    kept under a key stays there, unchanged, and the store never
    shrinks. *)
Theorem run_keeps_records (trace : list (Platform * Request)) (kv : Kv)
    (k : list string) (e : Entry) :
  kv !! k = Some e ->
  run trace kv !! k = Some e /\ kv ⊆ run trace kv.
Proof.
  intros Hk. split; [apply run_keeps; exact Hk |].
  apply map_subseteq_spec. intros k' e' Hk'. apply run_keeps. exact Hk'.
Qed.

(** The record of [takenStore] survives a second shorten of the same
    string, a shorten of another URL and a visit. *)
Lemma run_keeps_records_witness :
  takenStore !! ["urls"; "a1b2c3"] = Some (mkEntry "0f9e8d" "a1b2c3") /\
  run [ (mkPlatform uuidA noFiles, shortenUrl "a1b2c3");
        (mkPlatform uuidA noFiles, shortenUrl "https://example.com");
        (mkPlatform uuidB noFiles, visit "a1b2c3") ] takenStore
    !! ["urls"; "a1b2c3"] = Some (mkEntry "0f9e8d" "a1b2c3").
Proof.
  assert (H : takenStore !! ["urls"; "a1b2c3"] = Some (mkEntry "0f9e8d" "a1b2c3")).
  { rewrite takenStore_eq. apply lookup_insert_eq. }
  split; [exact H |].
  apply (proj1 (run_keeps_records _ takenStore ["urls"; "a1b2c3"]
                  (mkEntry "0f9e8d" "a1b2c3") H)).
Defined.

(** X2. A request changes the store only if it is a [POST /shorten], and
    then it adds exactly one record; every other request, whatever its
    method, path or body, leaves the store as it was. *)
Theorem store_changes_only_by_shorten (env : Platform) (req : Request) (kv : Kv) :
  (respond env req kv).2 = kv \/
  (method req = "POST" /\ pathname req = "/shorten" /\
   size (respond env req kv).2 = S (size kv) /\
   status_of (respond env req kv).1 = 200).
Proof.
  destruct (respond_cases env req kv)
    as [H | (Hm & Hp & fields & u & _ & _ & _ & _ & Hnew & ->)];
    [left; exact H | right].
  split; [exact Hm |]. split; [exact Hp |]. cbn [fst snd]. split; [| reflexivity].
  apply map_size_insert_None. exact Hnew.
Qed.

(** Where the records of a store reached from [kv] come from. *)
Lemma run_origin (trace : list (Platform * Request)) (kv : Kv)
    (k : list string) (e : Entry) :
  run trace kv !! k = Some e ->
  kv !! k = Some e \/
  exists (env : Platform) (req : Request),
    (env, req) ∈ trace /\ shortId e = candidate env /\ k = ["urls"; url e] /\
    fitsWrite k = true.
Proof.
  revert kv. induction trace as [| [env req] rest IH]; intros kv Hk; [left; exact Hk |].
  cbn [run] in Hk. destruct (IH _ Hk) as [Hstep | (env' & req' & Hin & Hid & Hkey)].
  - destruct (respond_cases env req kv)
      as [Hsame | (_ & _ & fields & u & _ & _ & _ & Hfit & _ & Heq)].
    + left. rewrite Hsame in Hstep. exact Hstep.
    + rewrite Heq in Hstep. cbn [snd] in Hstep.
      apply lookup_insert_Some in Hstep as [[<- <-] | [_ Hold]]; [right | left; exact Hold].
      exists env, req. split; [apply list_elem_of_here |]. repeat split. exact Hfit.
  - right. exists env', req'. split; [apply list_elem_of_further; exact Hin | auto].
Qed.

Lemma run_well_keyed (trace : list (Platform * Request)) : well_keyed (run trace ∅).
Proof.
  intros k e Hk. destruct (run_origin _ _ _ _ Hk) as [H | (_ & _ & _ & _ & H & _)]; [| exact H].
  rewrite lookup_empty in H. discriminate.
Qed.

Lemma respond_returns (env : Platform) (req : Request) (kv : Kv) :
  (exists r : Response,
     handler env req kv = (Returns r, (respond env req kv).2) /\
     (respond env req kv).1 = r) \/
  (exists e : JsError,
     handler env req kv = (Throws e, (respond env req kv).2) /\
     (respond env req kv).1 = onError e).
Proof.
  unfold respond. destruct (handler env req kv) as [[r | e] kv']; cbn [fst snd]; eauto.
Qed.

(** X3. On every store reached from the empty one, a request that is
    answered with [Response.redirect(loc, st)] is a GET, [st] is 302 and
    [loc] is the requested path without its leading slash: a redirect
    never leads anywhere but to the string that was asked for. *)
Theorem visit_redirects_to_itself (trace : list (Platform * Request))
    (env : Platform) (req : Request) (loc : string) (st : Z) :
  (respond env req (run trace ∅)).1 = Redirect loc st ->
  method req = "GET" /\ loc = JS.slice_from 1 (pathname req) /\ st = 302.
Proof.
  intros Hr.
  destruct (respond_returns env req (run trace ∅)) as [(r & Hh & Heq) | (e & _ & Heq)];
    rewrite Heq in Hr; [subst r | discriminate Hr].
  apply handler_returns in Hh
    as [(_ & H & _) | [(_ & _ & H & _) | [(_ & _ & fields & u & e & _ & _ & _ & _ & H)
       | [(Hm & _ & e & Hk & H) | [(_ & _ & _ & H) | (_ & _ & _ & H)]]]]];
    try discriminate H.
  injection H as -> ->. split; [exact Hm |]. split; [| reflexivity].
  apply run_well_keyed in Hk. apply key_inj in Hk. symmetry. exact Hk.
Qed.

(** The visit of the long URL after it was shortened. *)
Lemma visit_redirects_to_itself_witness :
  let trace := [ (mkPlatform uuidA noFiles, shortenUrl "https://example.com") ] in
  (respond (mkPlatform uuidB noFiles) (visit "https://example.com") (run trace ∅)).1
    = Redirect "https://example.com" 302 /\
  method (visit "https://example.com") = "GET" /\
  "https://example.com" = JS.slice_from 1 (pathname (visit "https://example.com")) /\
  302 = 302.
Proof.
  cbv zeta.
  assert (H : (respond (mkPlatform uuidB noFiles) (visit "https://example.com")
                 (run [ (mkPlatform uuidA noFiles, shortenUrl "https://example.com") ] ∅)).1
              = Redirect "https://example.com" 302).
  { cbn [run]. rewrite scenario_store, respond_visit by reflexivity.
    rewrite scenario_forward. reflexivity. }
  split; [exact H |].
  apply (visit_redirects_to_itself _ _ _ _ _ H).
Defined.

Lemma take_length (n : nat) (s : string) : (String.length (JS.take n s) <= n)%nat.
Proof.
  revert s. induction n as [| n IH]; intros [| c s]; cbn; try lia.
  specialize (IH s). lia.
Qed.

Lemma take_isPrefix (n : nat) (s : string) : JS.isPrefix (JS.take n s) s = true.
Proof.
  revert s. induction n as [| n IH]; intros [| c s]; cbn; try reflexivity.
  rewrite Ascii.eqb_refl. apply IH.
Qed.

(** X4. Every record of a store reached from the empty one carries, as
    its short identifier, the first characters (at most six) of a UUID
    drawn for one of the requests, and sits under its own [url]. *)
Theorem stored_ids_are_uuid_prefixes (trace : list (Platform * Request))
    (k : list string) (e : Entry) :
  run trace ∅ !! k = Some e ->
  k = ["urls"; url e] /\
  (String.length (shortId e) <= 6)%nat /\
  exists (env : Platform) (req : Request),
    (env, req) ∈ trace /\
    shortId e = JS.slice 0 6 (randomUUID env) /\
    JS.isPrefix (shortId e) (randomUUID env) = true.
Proof.
  intros Hk. destruct (run_origin _ _ _ _ Hk) as [H | (env & req & Hin & Hid & Hkey & _)].
  { rewrite lookup_empty in H. discriminate. }
  split; [exact Hkey |]. rewrite Hid. split; [apply take_length |].
  exists env, req. split; [exact Hin |]. split; [reflexivity |]. apply take_isPrefix.
Qed.

(** The record left by shortening [https://example.com] with [uuidA]. *)
Lemma stored_ids_are_uuid_prefixes_witness :
  let trace := [ (mkPlatform uuidA noFiles, shortenUrl "https://example.com") ] in
  let k := ["urls"; "https://example.com"] in
  let e := mkEntry "a1b2c3" "https://example.com" in
  run trace ∅ !! k = Some e /\
  k = ["urls"; url e] /\
  (String.length (shortId e) <= 6)%nat /\
  exists (env : Platform) (req : Request),
    (env, req) ∈ trace /\
    shortId e = JS.slice 0 6 (randomUUID env) /\
    JS.isPrefix (shortId e) (randomUUID env) = true.
Proof.
  cbv zeta.
  assert (H : run [ (mkPlatform uuidA noFiles, shortenUrl "https://example.com") ] ∅
                !! ["urls"; "https://example.com"]
              = Some (mkEntry "a1b2c3" "https://example.com")).
  { cbn [run]. rewrite scenario_store. apply lookup_insert_eq. }
  split; [exact H |].
  apply (stored_ids_are_uuid_prefixes _ _ _ H).
Defined.

(** * Every request: what can be answered *)

(** X5. An answer [{ shortId: id }] is given only to a [POST /shorten]
    whose body has a string [url] without [.deno.dev], and after it the
    store holds a record under that string carrying [id]. *)
Theorem ok_reply_means_stored (env : Platform) (req : Request) (kv : Kv) (id : string) :
  (respond env req kv).1 = shortIdResponse id ->
  method req = "POST" /\ pathname req = "/shorten" /\
  exists (fields : list (string * JSON)) (u : string) (e : Entry),
    json req = Some (JObj fields) /\ get_field "url" fields = Some (JStr u) /\
    JS.includes u ".deno.dev" = false /\
    (respond env req kv).2 !! ["urls"; u] = Some e /\ shortId e = id.
Proof.
  intros Hr.
  destruct (respond_returns env req kv) as [(r & Hh & Heq) | (e & _ & Heq)];
    rewrite Heq in Hr; [subst r | discriminate Hr].
  apply handler_returns in Hh
    as [(_ & H & _) | [(_ & _ & H & _) | [(Hm & Hp & fields & u & e & Hb & Hu & Hi & Hk & H)
       | [(_ & _ & e & _ & H) | [(_ & _ & _ & H) | (_ & _ & _ & H)]]]]];
    try discriminate H.
  split; [exact Hm |]. split; [exact Hp |].
  exists fields, u, e. injection H as H. auto.
Qed.

Lemma ok_reply_means_stored_witness :
  let env := mkPlatform uuidA noFiles in
  let req := shortenUrl "https://example.com" in
  (respond env req ∅).1 = shortIdResponse "a1b2c3" /\
  method req = "POST" /\ pathname req = "/shorten" /\
  exists (fields : list (string * JSON)) (u : string) (e : Entry),
    json req = Some (JObj fields) /\ get_field "url" fields = Some (JStr u) /\
    JS.includes u ".deno.dev" = false /\
    (respond env req ∅).2 !! ["urls"; u] = Some e /\ shortId e = "a1b2c3".
Proof.
  cbv zeta. split; [exact scenario_reply |].
  apply (ok_reply_means_stored (mkPlatform uuidA noFiles)
           (shortenUrl "https://example.com") ∅ "a1b2c3" scenario_reply).
Defined.

(** X6. For a string [url], the answer to [POST /shorten] is 400 exactly
    when the string contains [.deno.dev]; when the key made of it fits
    the store's 2048 bytes, the answer is 200 exactly when it does not
    contain [.deno.dev]; and a string without [.deno.dev] whose key does
    not fit is answered 500, with nothing written. *)
Theorem domain_loop_exact (env : Platform) (u : string) (kv : Kv) :
  (status_of (respond env (shortenUrl u) kv).1 = 400 <->
   exists pre post : string, u = pre +:+ ".deno.dev" +:+ post) /\
  ((keySize ["urls"; u] <= MAX_WRITE_KEY_SIZE_BYTES)%nat ->
   (status_of (respond env (shortenUrl u) kv).1 = 200 <->
    ~ exists pre post : string, u = pre +:+ ".deno.dev" +:+ post)) /\
  ((~ exists pre post : string, u = pre +:+ ".deno.dev" +:+ post) ->
   (MAX_WRITE_KEY_SIZE_BYTES < keySize ["urls"; u])%nat ->
   respond env (shortenUrl u) kv
     = (NewResponse (BodyText "Internal Server Error") 500 [], kv)).
Proof.
  rewrite <- includes_spec. split; [| split].
  - rewrite respond_shorten.
    destruct (JS.includes u ".deno.dev").
    + cbn. split; reflexivity.
    + assert (Hst : forall p : Response * Kv,
                 p = (if fitsRead ["urls"; u]
                      then match kv !! ["urls"; u] with
                           | Some e => (shortIdResponse (shortId e), kv)
                           | None =>
                               if fitsWrite ["urls"; u]
                               then (shortIdResponse (candidate env),
                                     <[ ["urls"; u] := mkEntry (candidate env) u ]> kv)
                               else (onError TypeError, kv)
                           end
                      else (onError TypeError, kv)) ->
                 status_of p.1 <> 400).
      { intros p ->. destruct (fitsRead ["urls"; u]); [| discriminate].
        destruct (kv !! ["urls"; u]); [discriminate |].
        destruct (fitsWrite ["urls"; u]); discriminate. }
      split; [intros H; exfalso; exact (Hst _ eq_refl H) | discriminate].
  - intros Hfit. apply fitsWrite_le in Hfit.
    destruct (JS.includes u ".deno.dev") eqn:Hinc.
    + rewrite respond_shorten, Hinc. cbn.
      split; [discriminate | intros H; exfalso; apply H; reflexivity].
    + rewrite (respond_shorten_fits _ _ _ Hinc Hfit).
      split; [intros _; discriminate |]. intros _.
      destruct (kv !! ["urls"; u]); reflexivity.
  - intros Hno Hbig.
    assert (Hinc : JS.includes u ".deno.dev" = false)
      by (destruct (JS.includes u ".deno.dev"); [exfalso; apply Hno; reflexivity | reflexivity]).
    assert (Hfit : fitsRead ["urls"; u] = false).
    { apply Nat.leb_gt. unfold MAX_READ_KEY_SIZE_BYTES, MAX_WRITE_KEY_SIZE_BYTES in *. lia. }
    rewrite respond_shorten, Hinc, Hfit. reflexivity.
Qed.

(** A long URL of 2041 bytes on the empty store. *)
Lemma domain_loop_exact_witness :
  (~ exists pre post : string, overlongUrl = pre +:+ ".deno.dev" +:+ post) /\
  (MAX_WRITE_KEY_SIZE_BYTES < keySize ["urls"; overlongUrl])%nat /\
  respond (mkPlatform uuidA noFiles) (shortenUrl overlongUrl) ∅
    = (NewResponse (BodyText "Internal Server Error") 500 [], ∅).
Proof.
  assert (Hno : ~ exists pre post : string, overlongUrl = pre +:+ ".deno.dev" +:+ post).
  { intros H. apply includes_spec in H. vm_compute in H. discriminate H. }
  assert (Hbig : (MAX_WRITE_KEY_SIZE_BYTES < keySize ["urls"; overlongUrl])%nat).
  { apply Nat.ltb_lt. vm_compute. reflexivity. }
  split; [exact Hno |]. split; [exact Hbig |].
  apply (proj2 (proj2 (domain_loop_exact (mkPlatform uuidA noFiles) overlongUrl ∅)));
    [exact Hno | exact Hbig].
Defined.

(** X7. A [POST /shorten] whose body has no string under [url] never
    writes and is never answered 200: it is answered 500, except that an
    array holding the string [.deno.dev] as an element is answered 400. *)
Theorem non_string_url (env : Platform) (req : Request) (kv : Kv) :
  method req = "POST" -> pathname req = "/shorten" ->
  (forall (fields : list (string * JSON)) (u : string),
     json req = Some (JObj fields) -> get_field "url" fields <> Some (JStr u)) ->
  (respond env req kv).2 = kv /\
  ((exists e : JsError, (respond env req kv).1 = onError e) \/
   ((respond env req kv).1 = domainLoopResponse /\
    exists (fields : list (string * JSON)) (items : list JSON),
      json req = Some (JObj fields) /\
      get_field "url" fields = Some (JArr items) /\
      In (JStr ".deno.dev") items)).
Proof.
  intros Hm Hp Hns.
  unfold respond, handler. rewrite Hm, Hp. cbn [String.eqb Ascii.eqb Bool.eqb andb].
  unfold shorten, bind, req_json.
  destruct (json req) as [body |] eqn:Hbody; [| cbn; eauto].
  destruct body as [| b | n | s | items | fields]; try (cbn; eauto).
  cbn [destructure_url ret].
  destruct (get_field "url" fields) as [v |] eqn:Hurl; [| cbn; eauto].
  destruct v as [| b | n | u | items | fs]; try (cbn; eauto).
  - exfalso. exact (Hns fields u eq_refl Hurl).
  - cbn. destruct (existsb _ items) eqn:Hex; cbn; [| eauto].
    split; [reflexivity |]. right. split; [reflexivity |].
    exists fields, items. split; [reflexivity |]. split; [exact Hurl |].
    apply existsb_exists in Hex as (x & Hin & Hx).
    destruct x; try discriminate Hx. cbn in Hx. apply String.eqb_eq in Hx. subst. exact Hin.
Qed.

(** An array holding [.deno.dev] is answered 400. *)
Lemma non_string_url_witness :
  let req := postShorten (JObj [("url", JArr [JStr "x"; JStr ".deno.dev"])]) in
  (respond (mkPlatform uuidA noFiles) req ∅).2 = ∅ /\
  ((exists e : JsError, (respond (mkPlatform uuidA noFiles) req ∅).1 = onError e) \/
   ((respond (mkPlatform uuidA noFiles) req ∅).1 = domainLoopResponse /\
    exists (fields : list (string * JSON)) (items : list JSON),
      json req = Some (JObj fields) /\
      get_field "url" fields = Some (JArr items) /\
      In (JStr ".deno.dev") items)).
Proof.
  cbv zeta.
  apply (non_string_url (mkPlatform uuidA noFiles)
           (postShorten (JObj [("url", JArr [JStr "x"; JStr ".deno.dev"])])) ∅);
    [reflexivity | reflexivity |].
  intros fields u [= <-]. discriminate.
Defined.

(** X8. Every response the handler builds itself carries the three CORS
    headers, as the last of its headers. *)
Theorem handler_replies_carry_cors (env : Platform) (req : Request) (kv kv' : Kv)
    (body : Body) (st : Z) (headers : list (string * string)) :
  handler env req kv = (Returns (NewResponse body st headers), kv') ->
  exists pre : list (string * string), headers = pre ++ corsHeaders.
Proof.
  intros Hh.
  apply handler_returns in Hh
    as [(_ & H & _) | [(_ & _ & H & _) | [(_ & _ & fields & u & e & _ & _ & _ & _ & H)
       | [(_ & _ & e & _ & H) | [(_ & _ & _ & H) | (_ & _ & _ & H)]]]]];
    try discriminate H; injection H as _ _ ->;
    first [exists []; reflexivity | exists [("Content-Type", "application/json")]; reflexivity].
Qed.

(** The 400 answer to a URL with [.deno.dev]. *)
Lemma handler_replies_carry_cors_witness :
  handler (mkPlatform uuidA noFiles) (shortenUrl "https://iec.deno.dev/x") ∅
    = (Returns (NewResponse (BodyText "Error: Long URL cannot contain '.deno.dev'") 400
                            corsHeaders), ∅) /\
  exists pre : list (string * string), corsHeaders = pre ++ corsHeaders.
Proof.
  assert (H : handler (mkPlatform uuidA noFiles) (shortenUrl "https://iec.deno.dev/x") ∅
              = (Returns (NewResponse (BodyText "Error: Long URL cannot contain '.deno.dev'")
                                      400 corsHeaders), ∅)).
  { rewrite handler_shorten. reflexivity. }
  split; [exact H |].
  apply (handler_replies_carry_cors _ _ _ _ _ _ _ H).
Defined.

(** X9. Whatever the request and the store, the status answered is one
    of 200, 302, 400, 404 and 500; a redirect is only ever answered to a
    GET, and 400 only to a [POST /shorten]. *)
Theorem status_codes (env : Platform) (req : Request) (kv : Kv) :
  status_of (respond env req kv).1 ∈ [200; 302; 400; 404; 500] /\
  (status_of (respond env req kv).1 = 302 -> method req = "GET") /\
  (status_of (respond env req kv).1 = 400 ->
   method req = "POST" /\ pathname req = "/shorten").
Proof.
  destruct (respond_returns env req kv) as [(r & Hh & ->) | (e & _ & ->)].
  - apply handler_returns in Hh
      as [(_ & -> & _) | [(Hm & Hp & -> & _) | [(_ & _ & fields & u & e & _ & _ & _ & _ & ->)
         | [(Hm & _ & e & _ & ->) | [(_ & _ & _ & ->) | (_ & _ & _ & ->)]]]]];
      cbn [status_of shortIdResponse domainLoopResponse urlNotFoundResponse notFoundResponse];
      (split; [set_solver |]); split; intros H; try discriminate H; auto.
  - cbn. split; [set_solver |]. split; intros H; discriminate H.
Qed.

(** X10. A request that is neither OPTIONS, nor GET, nor a POST to
    [/shorten] is answered 404 "Not Found" and leaves the store alone. *)
Theorem unrouted_is_not_found (env : Platform) (req : Request) (kv : Kv) :
  method req <> "OPTIONS" -> method req <> "GET" ->
  (method req <> "POST" \/ pathname req <> "/shorten") ->
  respond env req kv = (notFoundResponse, kv).
Proof.
  intros Ho Hg Hp. apply String.eqb_neq in Ho, Hg.
  assert (Hpost : String.eqb (method req) "POST" && String.eqb (pathname req) "/shorten" = false).
  { apply andb_false_iff. destruct Hp as [H | H]; apply String.eqb_neq in H; auto. }
  unfold respond, handler, staticFiles. rewrite Ho, Hpost, Hg. reflexivity.
Qed.

(** A PUT to [/shorten] with a well-formed body. *)
Lemma unrouted_is_not_found_witness :
  respond (mkPlatform uuidA noFiles)
          (mkRequest "PUT" "/shorten" (Some (JObj [("url", JStr "https://example.com")])))
          takenStore
    = (notFoundResponse, takenStore).
Proof.
  apply (unrouted_is_not_found (mkPlatform uuidA noFiles)
           (mkRequest "PUT" "/shorten" (Some (JObj [("url", JStr "https://example.com")])))
           takenStore).
  - discriminate.
  - discriminate.
  - left. discriminate.
Defined.

(** A key the store refuses to write is free on every store reached from
    one where it is free. *)
Lemma run_never_writes (trace : list (Platform * Request)) (kv : Kv) (k : list string) :
  kv !! k = None -> fitsWrite k = false -> run trace kv !! k = None.
Proof.
  intros Hnone Hbig. destruct (run trace kv !! k) as [e |] eqn:Hk; [| reflexivity].
  destruct (run_origin _ _ _ _ Hk) as [H | (_ & _ & _ & _ & _ & Hfit)]; congruence.
Qed.

(** X11. Once a long URL has been shortened, every later shorten of it
    returns the same answer, whatever requests were handled in between
    and whatever UUID is drawn. *)
Theorem shorten_stable_across_requests (env1 env2 : Platform) (u : string) (kv : Kv)
    (trace : list (Platform * Request)) :
  JS.includes u ".deno.dev" = false ->
  respond env2 (shortenUrl u) (run trace (respond env1 (shortenUrl u) kv).2)
    = ((respond env1 (shortenUrl u) kv).1, run trace (respond env1 (shortenUrl u) kv).2).
Proof.
  intros Hok. rewrite (respond_shorten env1), Hok.
  destruct (fitsRead ["urls"; u]) eqn:Hread.
  - destruct (kv !! ["urls"; u]) as [e |] eqn:Hget; cbn [fst snd].
    + rewrite respond_shorten, Hok, Hread, (run_keeps trace _ _ _ Hget). reflexivity.
    + destruct (fitsWrite ["urls"; u]) eqn:Hwrite; cbn [fst snd].
      * rewrite respond_shorten, Hok, Hread.
        rewrite (run_keeps trace _ _ (mkEntry (candidate env1) u)) by apply lookup_insert_eq.
        reflexivity.
      * rewrite respond_shorten, Hok, Hread, Hwrite.
        rewrite (run_never_writes trace _ _ Hget Hwrite). reflexivity.
  - cbn [fst snd]. rewrite respond_shorten, Hok, Hread. reflexivity.
Qed.

Lemma shorten_stable_across_requests_witness :
  let kv1 := (respond (mkPlatform uuidA noFiles) (shortenUrl "https://example.com") ∅).2 in
  let trace := [ (mkPlatform uuidB noFiles, shortenUrl "https://example.org");
                 (mkPlatform uuidC noFiles, visit "a1b2c3") ] in
  respond (mkPlatform uuidC noFiles) (shortenUrl "https://example.com") (run trace kv1)
    = ((respond (mkPlatform uuidA noFiles) (shortenUrl "https://example.com") ∅).1,
       run trace kv1).
Proof.
  cbv zeta.
  apply (shorten_stable_across_requests (mkPlatform uuidA noFiles) (mkPlatform uuidC noFiles)
           "https://example.com" ∅).
  reflexivity.
Defined.

(** * The earlier revisions *)

Lemma encodedBytes_le (s : string) : (encodedBytes s <= 2 * String.length s)%nat.
Proof.
  induction s as [| c s IH]; cbn [encodedBytes String.length]; [lia |].
  destruct (Ascii.eqb c Ascii.zero); lia.
Qed.

(** The key made of a drawn identifier always fits. *)
Lemma candidate_fits (env : Platform) :
  fitsWrite ["urls"; candidate env] = true /\ fitsRead ["urls"; candidate env] = true.
Proof.
  assert (H : fitsWrite ["urls"; candidate env] = true).
  { apply Nat.leb_le. unfold MAX_WRITE_KEY_SIZE_BYTES. cbn [keySize encodedBytes].
    pose proof (encodedBytes_le (candidate env)).
    pose proof (take_length 6 (randomUUID env)).
    unfold candidate, JS.slice in *. cbn [Nat.sub JS.slice_from] in *.
    change (if Ascii.eqb _ Ascii.zero then 2 else 1)%nat with 1%nat. lia. }
  split; [exact H | apply fitsWrite_fitsRead; exact H].
Qed.

(** [POST /shorten] in the branches the two revisions share. *)
Lemma legacy_post (cors : list (string * string)) (env : Platform) (req : Request)
    (kv : Legacy.Kv) :
  method req = "POST" -> pathname req = "/shorten" ->
  Legacy.routes cors env req kv
    = match Legacy.body_url req with
      | Throws e => (Throws e, kv)
      | Returns target =>
          (Returns (Legacy.Made (BodyJson (JObj [("shortId", JStr (candidate env))])) 200
                                (("Content-Type", "application/json") :: cors)),
           <[ ["urls"; candidate env] := Legacy.mkEntry target ]> kv)
      end.
Proof.
  intros Hm Hp. unfold Legacy.routes, Legacy.shorten. rewrite Hm, Hp.
  cbn [String.eqb Ascii.eqb Bool.eqb andb].
  destruct (Legacy.body_url req); [| reflexivity].
  change (JS.slice 0 6 (randomUUID env)) with (candidate env).
  rewrite (proj1 (candidate_fits env)). reflexivity.
Qed.

(** A GET of the path made of a drawn identifier. *)
Lemma legacy_get (cors : list (string * string)) (env env' : Platform) (req : Request)
    (kv : Legacy.Kv) :
  method req = "GET" -> pathname req = "/" +:+ candidate env ->
  Legacy.routes cors env' req kv
    = match kv !! ["urls"; candidate env] with
      | Some e => (Returns (Legacy.RedirectTo (Legacy.url e) 302), kv)
      | None => (Returns (Legacy.Made (BodyText "URL not found") 404 cors), kv)
      end.
Proof.
  intros Hm Hp. unfold Legacy.routes, Legacy.resolve. rewrite Hm, Hp.
  rewrite startsWith_slash, slice_slash, (proj2 (candidate_fits env)). reflexivity.
Qed.

Lemma legacy_respond_routes (cors : list (string * string)) (env : Platform)
    (req : Request) (kv : Legacy.Kv) :
  method req <> "OPTIONS" ->
  (cors = corsHeaders -> Legacy.handlerCors env req kv = Legacy.routes cors env req kv) /\
  (cors = [] -> Legacy.handlerPlain env req kv = Legacy.routes cors env req kv).
Proof.
  intros Ho. apply String.eqb_neq in Ho. split; intros ->.
  - unfold Legacy.handlerCors. rewrite Ho. reflexivity.
  - reflexivity.
Qed.

(** Either revision is the shared branches on a request that is not OPTIONS. *)
Lemma legacy_handler_routes (h : Platform -> Request -> Legacy.Kv -> Outcome Legacy.Reply * Legacy.Kv)
    (env : Platform) (req : Request) (kv : Legacy.Kv) :
  h = Legacy.handlerCors \/ h = Legacy.handlerPlain ->
  method req <> "OPTIONS" ->
  exists cors : list (string * string), h env req kv = Legacy.routes cors env req kv.
Proof.
  intros [-> | ->] Ho.
  - exists corsHeaders. exact (proj1 (legacy_respond_routes _ env req kv Ho) eq_refl).
  - exists []. reflexivity.
Qed.

(** A [POST /shorten] answered 200 has written what its body had under
    [url] under the identifier it answers with. *)
Lemma legacy_post_ok (h : Platform -> Request -> Legacy.Kv -> Outcome Legacy.Reply * Legacy.Kv)
    (env : Platform) (req : Request) (kv : Legacy.Kv) :
  h = Legacy.handlerCors \/ h = Legacy.handlerPlain ->
  method req = "POST" -> pathname req = "/shorten" ->
  Legacy.status_of (Legacy.respond h env req kv).1 = 200 ->
  exists (target : option JSON) (headers : list (string * string)),
    Legacy.body_url req = Returns target /\
    Legacy.respond h env req kv
      = (Legacy.Made (BodyJson (JObj [("shortId", JStr (candidate env))])) 200 headers,
         <[ ["urls"; candidate env] := Legacy.mkEntry target ]> kv).
Proof.
  intros Hh Hm Hp.
  assert (Ho : method req <> "OPTIONS") by (rewrite Hm; discriminate).
  destruct (legacy_handler_routes h env req kv Hh Ho) as [cors Heq].
  unfold Legacy.respond. rewrite Heq, (legacy_post cors env req kv Hm Hp).
  destruct (Legacy.body_url req) as [target | e]; cbn [fst Legacy.status_of].
  - intros _. exists target, (("Content-Type", "application/json") :: cors). auto.
  - discriminate.
Qed.

(** What a GET of a stored identifier answers and does. *)
Lemma legacy_get_hit (h : Platform -> Request -> Legacy.Kv -> Outcome Legacy.Reply * Legacy.Kv)
    (env env' : Platform) (req : Request) (kv : Legacy.Kv) (target : option JSON) :
  h = Legacy.handlerCors \/ h = Legacy.handlerPlain ->
  method req = "GET" -> pathname req = "/" +:+ candidate env ->
  kv !! ["urls"; candidate env] = Some (Legacy.mkEntry target) ->
  Legacy.respond h env' req kv = (Legacy.RedirectTo target 302, kv).
Proof.
  intros Hh Hm Hp Hk.
  assert (Ho : method req <> "OPTIONS") by (rewrite Hm; discriminate).
  destruct (legacy_handler_routes h env' req kv Hh Ho) as [cors Heq].
  unfold Legacy.respond. rewrite Heq, (legacy_get cors env env' req kv Hm Hp), Hk.
  reflexivity.
Qed.

(** X13. In both earlier revisions the round trip holds in the store: a
    [POST /shorten] that is answered 200 is answered with the first six
    characters of the UUID and has written what its body had under [url]
    under that identifier, whatever the store held; a GET of that
    identifier then leaves the store alone, is not answered 404, and if
    it is answered with a redirect, the redirect is to that value with
    status 302. *)
Theorem legacy_round_trip
    (h : Platform -> Request -> Legacy.Kv -> Outcome Legacy.Reply * Legacy.Kv)
    (env env' : Platform) (req get : Request) (kv : Legacy.Kv) :
  h = Legacy.handlerCors \/ h = Legacy.handlerPlain ->
  method req = "POST" -> pathname req = "/shorten" ->
  Legacy.status_of (Legacy.respond h env req kv).1 = 200 ->
  method get = "GET" -> pathname get = "/" +:+ JS.slice 0 6 (randomUUID env) ->
  let id := JS.slice 0 6 (randomUUID env) in
  let kv1 := (Legacy.respond h env req kv).2 in
  exists (target : option JSON) (headers : list (string * string)),
    Legacy.body_url req = Returns target /\
    (Legacy.respond h env req kv).1
      = Legacy.Made (BodyJson (JObj [("shortId", JStr id)])) 200 headers /\
    kv1 !! ["urls"; id] = Some (Legacy.mkEntry target) /\
    (Legacy.respond h env' get kv1).2 = kv1 /\
    Legacy.status_of (Legacy.respond h env' get kv1).1 <> 404 /\
    forall (loc : option JSON) (st : Z),
      (Legacy.respond h env' get kv1).1 = Legacy.RedirectTo loc st ->
      loc = target /\ st = 302.
Proof.
  intros Hh Hm Hp Hok Hgm Hgp. cbv zeta.
  change (JS.slice 0 6 (randomUUID env)) with (candidate env) in *.
  destruct (legacy_post_ok h env req kv Hh Hm Hp Hok) as (target & headers & Hb & ->).
  cbn [fst snd]. exists target, headers.
  assert (Hk : (<[ ["urls"; candidate env] := Legacy.mkEntry target ]> kv)
                 !! ["urls"; candidate env] = Some (Legacy.mkEntry target))
    by apply lookup_insert_eq.
  rewrite (legacy_get_hit h env env' get _ target Hh Hgm Hgp Hk). cbn [fst snd].
  repeat split; auto; try discriminate; congruence.
Qed.

(** [https://example.com] shortened and visited in the revision with CORS headers. *)
Lemma legacy_round_trip_witness :
  let env := mkPlatform uuidA noFiles in
  let req := shortenUrl "https://example.com" in
  let kv1 := (Legacy.respond Legacy.handlerCors env req ∅).2 in
  Legacy.status_of (Legacy.respond Legacy.handlerCors env req ∅).1 = 200 /\
  exists (target : option JSON) (headers : list (string * string)),
    Legacy.body_url req = Returns target /\
    (Legacy.respond Legacy.handlerCors env req ∅).1
      = Legacy.Made (BodyJson (JObj [("shortId", JStr "a1b2c3")])) 200 headers /\
    kv1 !! ["urls"; "a1b2c3"] = Some (Legacy.mkEntry target) /\
    (Legacy.respond Legacy.handlerCors env (visit "a1b2c3") kv1).2 = kv1 /\
    Legacy.status_of (Legacy.respond Legacy.handlerCors env (visit "a1b2c3") kv1).1 <> 404 /\
    forall (loc : option JSON) (st : Z),
      (Legacy.respond Legacy.handlerCors env (visit "a1b2c3") kv1).1
        = Legacy.RedirectTo loc st ->
      loc = target /\ st = 302.
Proof.
  cbv zeta. split; [reflexivity |].
  apply (legacy_round_trip Legacy.handlerCors (mkPlatform uuidA noFiles)
           (mkPlatform uuidA noFiles) (shortenUrl "https://example.com")
           (visit "a1b2c3") ∅);
    [left; reflexivity | reflexivity | reflexivity | reflexivity | reflexivity | reflexivity].
Defined.

(** X14. The earlier revision overwrites: when two shorten requests that
    are both answered 200 draw UUIDs with the same first six characters,
    they are answered alike, the store then keeps the value of the second
    request under that identifier, and a redirect answered to a GET of
    the identifier is to that value; the mapping of the first is lost. *)
Theorem legacy_last_writer_wins (env1 env2 env' : Platform) (req1 req2 get : Request)
    (kv : Legacy.Kv) :
  method req1 = "POST" -> pathname req1 = "/shorten" ->
  method req2 = "POST" -> pathname req2 = "/shorten" ->
  JS.slice 0 6 (randomUUID env1) = JS.slice 0 6 (randomUUID env2) ->
  let kv1 := (Legacy.respond Legacy.handlerCors env1 req1 kv).2 in
  let kv2 := (Legacy.respond Legacy.handlerCors env2 req2 kv1).2 in
  Legacy.status_of (Legacy.respond Legacy.handlerCors env1 req1 kv).1 = 200 ->
  Legacy.status_of (Legacy.respond Legacy.handlerCors env2 req2 kv1).1 = 200 ->
  method get = "GET" -> pathname get = "/" +:+ JS.slice 0 6 (randomUUID env1) ->
  (Legacy.respond Legacy.handlerCors env1 req1 kv).1
    = (Legacy.respond Legacy.handlerCors env2 req2 kv1).1 /\
  exists target2 : option JSON,
    Legacy.body_url req2 = Returns target2 /\
    kv2 !! ["urls"; JS.slice 0 6 (randomUUID env1)] = Some (Legacy.mkEntry target2) /\
    forall (loc : option JSON) (st : Z),
      (Legacy.respond Legacy.handlerCors env' get kv2).1 = Legacy.RedirectTo loc st ->
      loc = target2 /\ st = 302.
Proof.
  intros Hm1 Hp1 Hm2 Hp2 Hsame. cbv zeta. intros Hok1 Hok2 Hgm Hgp.
  change (JS.slice 0 6 (randomUUID env1)) with (candidate env1) in *.
  change (JS.slice 0 6 (randomUUID env2)) with (candidate env2) in *.
  assert (Hh : Legacy.handlerCors = Legacy.handlerCors \/ Legacy.handlerCors = Legacy.handlerPlain)
    by (left; reflexivity).
  destruct (legacy_post_ok _ env1 req1 kv Hh Hm1 Hp1 Hok1) as (t1 & hd1 & Hb1 & Heq1).
  rewrite Heq1 in *. cbn [fst snd] in *.
  destruct (legacy_post_ok _ env2 req2 _ Hh Hm2 Hp2 Hok2) as (t2 & hd2 & Hb2 & Heq2).
  assert (Hhd : hd1 = hd2).
  { pose proof Heq1 as E1. pose proof Heq2 as E2.
    unfold Legacy.respond, Legacy.handlerCors in E1, E2.
    rewrite Hm1 in E1. rewrite Hm2 in E2. cbn [String.eqb Ascii.eqb Bool.eqb] in E1, E2.
    rewrite (legacy_post _ env1 req1 _ Hm1 Hp1), Hb1 in E1.
    rewrite (legacy_post _ env2 req2 _ Hm2 Hp2), Hb2 in E2.
    injection E1 as E1. injection E2 as E2. congruence. }
  rewrite Heq2. cbn [fst snd]. rewrite <- Hsame, Hhd. split; [reflexivity |].
  exists t2. split; [exact Hb2 |].
  assert (Hk : (<[ ["urls"; candidate env1] := Legacy.mkEntry t2 ]>
                  (<[ ["urls"; candidate env1] := Legacy.mkEntry t1 ]> kv))
                 !! ["urls"; candidate env1] = Some (Legacy.mkEntry t2))
    by apply lookup_insert_eq.
  split; [exact Hk |].
  rewrite (legacy_get_hit _ env1 env' get _ t2 Hh Hgm Hgp Hk). cbn [fst].
  intros loc st [= <- <-]. auto.
Qed.

(** [uuidA] and [uuidB] share their first six characters. *)
Lemma legacy_last_writer_wins_witness :
  let env1 := mkPlatform uuidA noFiles in
  let env2 := mkPlatform uuidB noFiles in
  let kv1 := (Legacy.respond Legacy.handlerCors env1 (shortenUrl "https://example.com") ∅).2 in
  let kv2 := (Legacy.respond Legacy.handlerCors env2 (shortenUrl "https://example.org") kv1).2 in
  JS.slice 0 6 (randomUUID env1) = JS.slice 0 6 (randomUUID env2) /\
  (Legacy.respond Legacy.handlerCors env1 (shortenUrl "https://example.com") ∅).1
    = (Legacy.respond Legacy.handlerCors env2 (shortenUrl "https://example.org") kv1).1 /\
  exists target2 : option JSON,
    Legacy.body_url (shortenUrl "https://example.org") = Returns target2 /\
    kv2 !! ["urls"; JS.slice 0 6 (randomUUID env1)] = Some (Legacy.mkEntry target2) /\
    forall (loc : option JSON) (st : Z),
      (Legacy.respond Legacy.handlerCors env1 (visit "a1b2c3") kv2).1
        = Legacy.RedirectTo loc st ->
      loc = target2 /\ st = 302.
Proof.
  cbv zeta. split; [reflexivity |].
  apply (legacy_last_writer_wins (mkPlatform uuidA noFiles) (mkPlatform uuidB noFiles)
           (mkPlatform uuidA noFiles)
           (shortenUrl "https://example.com") (shortenUrl "https://example.org")
           (visit "a1b2c3") ∅);
    reflexivity.
Defined.

(** X15. The earlier revision does not deduplicate: when the same
    shorten request is answered 200 twice with UUIDs of different first
    six characters, the two answers differ and the store then keeps the
    value of the body under both identifiers. *)
Theorem legacy_no_dedup (env1 env2 : Platform) (req : Request) (kv : Legacy.Kv) :
  method req = "POST" -> pathname req = "/shorten" ->
  JS.slice 0 6 (randomUUID env1) <> JS.slice 0 6 (randomUUID env2) ->
  let kv1 := (Legacy.respond Legacy.handlerCors env1 req kv).2 in
  let kv2 := (Legacy.respond Legacy.handlerCors env2 req kv1).2 in
  Legacy.status_of (Legacy.respond Legacy.handlerCors env1 req kv).1 = 200 ->
  Legacy.status_of (Legacy.respond Legacy.handlerCors env2 req kv1).1 = 200 ->
  (Legacy.respond Legacy.handlerCors env1 req kv).1
    <> (Legacy.respond Legacy.handlerCors env2 req kv1).1 /\
  exists target : option JSON,
    Legacy.body_url req = Returns target /\
    kv2 !! ["urls"; JS.slice 0 6 (randomUUID env1)] = Some (Legacy.mkEntry target) /\
    kv2 !! ["urls"; JS.slice 0 6 (randomUUID env2)] = Some (Legacy.mkEntry target).
Proof.
  intros Hm Hp Hdiff. cbv zeta. intros Hok1 Hok2.
  change (JS.slice 0 6 (randomUUID env1)) with (candidate env1) in *.
  change (JS.slice 0 6 (randomUUID env2)) with (candidate env2) in *.
  assert (Hh : Legacy.handlerCors = Legacy.handlerCors \/ Legacy.handlerCors = Legacy.handlerPlain)
    by (left; reflexivity).
  destruct (legacy_post_ok _ env1 req kv Hh Hm Hp Hok1) as (t1 & hd1 & Hb1 & Heq1).
  rewrite Heq1 in *. cbn [fst snd] in *.
  destruct (legacy_post_ok _ env2 req _ Hh Hm Hp Hok2) as (t2 & hd2 & Hb2 & Heq2).
  rewrite Heq2. cbn [fst snd].
  assert (Ht : t2 = t1) by congruence. subst t2.
  split; [intros [= E _]; exact (Hdiff E) |].
  exists t1. split; [exact Hb1 |]. split.
  - rewrite lookup_insert_ne by (rewrite key_inj; congruence). apply lookup_insert_eq.
  - apply lookup_insert_eq.
Qed.

Lemma legacy_no_dedup_witness :
  let env1 := mkPlatform uuidA noFiles in
  let env2 := mkPlatform uuidC noFiles in
  let req := shortenUrl "https://example.com" in
  let kv1 := (Legacy.respond Legacy.handlerCors env1 req ∅).2 in
  let kv2 := (Legacy.respond Legacy.handlerCors env2 req kv1).2 in
  (Legacy.respond Legacy.handlerCors env1 req ∅).1
    <> (Legacy.respond Legacy.handlerCors env2 req kv1).1 /\
  exists target : option JSON,
    Legacy.body_url req = Returns target /\
    kv2 !! ["urls"; JS.slice 0 6 (randomUUID env1)] = Some (Legacy.mkEntry target) /\
    kv2 !! ["urls"; JS.slice 0 6 (randomUUID env2)] = Some (Legacy.mkEntry target).
Proof.
  cbv zeta.
  apply (legacy_no_dedup (mkPlatform uuidA noFiles) (mkPlatform uuidC noFiles)
           (shortenUrl "https://example.com") ∅);
    [reflexivity | reflexivity | discriminate | reflexivity | reflexivity].
Defined.

Lemma legacy_routes_cors (cors : list (string * string)) (env : Platform)
    (req : Request) (kv : Legacy.Kv) :
  (Legacy.respond (Legacy.routes cors) env req kv).2
    = (Legacy.respond (Legacy.routes []) env req kv).2 /\
  Legacy.bare (Legacy.respond (Legacy.routes cors) env req kv).1
    = Legacy.bare (Legacy.respond (Legacy.routes []) env req kv).1.
Proof.
  unfold Legacy.respond, Legacy.routes, Legacy.shorten, Legacy.resolve, Legacy.serveFile.
  destruct (String.eqb (method req) "POST" && String.eqb (pathname req) "/shorten").
  { destruct (Legacy.body_url req); [| split; reflexivity].
    destruct (fitsWrite ["urls"; JS.slice 0 6 (randomUUID env)]); split; reflexivity. }
  destruct (String.eqb (method req) "GET" && JS.startsWith (pathname req) "/").
  { destruct (fitsRead ["urls"; JS.slice_from 1 (pathname req)]); [| split; reflexivity].
    destruct (kv !! ["urls"; JS.slice_from 1 (pathname req)]); split; reflexivity. }
  repeat match goal with
         | |- context [if ?b then _ else _] => destruct b
         end;
    try (destruct (readTextFile env _)); split; reflexivity.
Qed.

(** X16. The two earlier revisions differ only in the headers and in the
    OPTIONS branch: for every request that is not OPTIONS they leave the
    same store and give the same status and body; an OPTIONS request is
    answered 200 by the revision with CORS headers and 404 "Not Found"
    by the one without, and changes the store in neither. *)
Theorem legacy_revisions_agree (env : Platform) (req : Request) (kv : Legacy.Kv) :
  (method req <> "OPTIONS" ->
   (Legacy.respond Legacy.handlerCors env req kv).2
     = (Legacy.respond Legacy.handlerPlain env req kv).2 /\
   Legacy.bare (Legacy.respond Legacy.handlerCors env req kv).1
     = Legacy.bare (Legacy.respond Legacy.handlerPlain env req kv).1) /\
  (method req = "OPTIONS" ->
   Legacy.respond Legacy.handlerCors env req kv = (Legacy.Made BodyNull 200 corsHeaders, kv) /\
   Legacy.respond Legacy.handlerPlain env req kv
     = (Legacy.Made (BodyText "Not Found") 404 [], kv)).
Proof.
  split.
  - intros Ho. apply String.eqb_neq in Ho.
    destruct (legacy_routes_cors corsHeaders env req kv) as [H1 H2].
    unfold Legacy.respond, Legacy.handlerCors, Legacy.handlerPlain in *.
    rewrite Ho. split; [exact H1 | exact H2].
  - intros Ho. unfold Legacy.respond, Legacy.handlerCors, Legacy.handlerPlain, Legacy.routes.
    rewrite Ho. split; reflexivity.
Qed.

Lemma legacy_revisions_agree_witness :
  let env := mkPlatform uuidA noFiles in
  ((Legacy.respond Legacy.handlerCors env (shortenUrl "https://example.com") ∅).2
     = (Legacy.respond Legacy.handlerPlain env (shortenUrl "https://example.com") ∅).2 /\
   Legacy.bare (Legacy.respond Legacy.handlerCors env (shortenUrl "https://example.com") ∅).1
     = Legacy.bare (Legacy.respond Legacy.handlerPlain env (shortenUrl "https://example.com") ∅).1) /\
  (Legacy.respond Legacy.handlerCors env (mkRequest "OPTIONS" "/shorten" None) ∅
     = (Legacy.Made BodyNull 200 corsHeaders, ∅) /\
   Legacy.respond Legacy.handlerPlain env (mkRequest "OPTIONS" "/shorten" None) ∅
     = (Legacy.Made (BodyText "Not Found") 404 [], ∅)).
Proof.
  cbv zeta. split.
  - apply (proj1 (legacy_revisions_agree (mkPlatform uuidA noFiles)
                    (shortenUrl "https://example.com") ∅)).
    discriminate.
  - apply (proj2 (legacy_revisions_agree (mkPlatform uuidA noFiles)
                    (mkRequest "OPTIONS" "/shorten" None) ∅)).
    reflexivity.
Defined.

(** * The accept loop: backoff after transient errors *)

Lemma backoff_range (d : option Z) :
  (forall v : Z, d = Some v -> 5 <= v) ->
  5 <= Accept.backoff d <= 1000.
Proof.
  intros Hd. unfold Accept.backoff, Accept.INITIAL_ACCEPT_BACKOFF_DELAY,
    Accept.MAX_ACCEPT_BACKOFF_DELAY.
  destruct d as [v |]; [| cbn; lia].
  specialize (Hd v eq_refl).
  destruct (Z.eqb_spec v 0) as [-> | Hv]; [cbn; lia |].
  destruct (Z.geb_spec (v * 2) 1000); lia.
Qed.

Lemma delays_range (results : list Accept.AcceptResult) (d : option Z) :
  (forall v : Z, d = Some v -> 5 <= v) ->
  Forall (fun w : Z => 5 <= w <= 1000) (Accept.delays results d).
Proof.
  revert d. induction results as [| r rest IH]; intros d Hd; cbn [Accept.delays].
  - constructor.
  - destruct r.
    + apply IH. intros v Hv. discriminate Hv.
    + constructor; [apply backoff_range; exact Hd |].
      apply IH. intros v [= <-]. pose proof (backoff_range d Hd). lia.
    + constructor.
Qed.

(** X17. Whatever the sequence of accept results, every delay the accept
    loop waits lies between 5 and 1000 milliseconds. *)
Theorem accept_delays_bounded (results : list Accept.AcceptResult) :
  Forall (fun w : Z => 5 <= w <= 1000) (Accept.delays results None).
Proof. apply delays_range. intros v Hv. discriminate Hv. Qed.

Lemma backoff_double (k : nat) :
  Accept.backoff (Some (Z.min (5 * 2 ^ Z.of_nat k) 1000))
  = Z.min (5 * 2 ^ Z.of_nat (S k)) 1000.
Proof.
  rewrite Nat2Z.inj_succ, Z.pow_succ_r by lia.
  assert (Hp : 0 < 2 ^ Z.of_nat k) by (apply Z.pow_pos_nonneg; lia).
  unfold Accept.backoff, Accept.INITIAL_ACCEPT_BACKOFF_DELAY,
    Accept.MAX_ACCEPT_BACKOFF_DELAY.
  set (p := 2 ^ Z.of_nat k) in *.
  destruct (Z.eqb_spec (Z.min (5 * p) 1000) 0) as [H0 | _]; [lia |].
  destruct (Z.geb_spec (Z.min (5 * p) 1000 * 2) 1000); lia.
Qed.

Lemma delays_transient_from (n k : nat) :
  Accept.delays (replicate n Accept.Transient) (Some (Z.min (5 * 2 ^ Z.of_nat k) 1000))
  = map (fun i : nat => Z.min (5 * 2 ^ Z.of_nat i) 1000) (seq (S k) n).
Proof.
  revert k. induction n as [| n IH]; intros k; [reflexivity |].
  cbn [replicate Accept.delays seq map]. rewrite backoff_double.
  f_equal. apply IH.
Qed.

(** X18. After [n] transient errors in a row the accept loop has waited
    5, 10, 20, ... milliseconds: the delay doubles at each error and is
    capped at 1000. *)
Theorem accept_delays_double_then_cap (n : nat) :
  Accept.delays (replicate n Accept.Transient) None
  = map (fun i : nat => Z.min (5 * 2 ^ Z.of_nat i) 1000) (seq 0 n).
Proof.
  destruct n as [| n]; [reflexivity |].
  cbn [replicate Accept.delays seq map].
  change (Accept.backoff None) with (Z.min (5 * 2 ^ Z.of_nat 0) 1000).
  f_equal. apply delays_transient_from.
Qed.

(** X19. An accepted connection resets the backoff: the delays waited
    after it are those of a loop that starts afresh, whatever errors came
    before. *)
Theorem accept_resets_backoff (before after : list Accept.AcceptResult) (d : option Z) :
  Accept.Fatal ∉ before ->
  Accept.delays (before ++ Accept.Accepted :: after) d
  = Accept.delays before d ++ Accept.delays after None.
Proof.
  revert d. induction before as [| r rest IH]; intros d Hnf; [reflexivity |].
  assert (Hrest : Accept.Fatal ∉ rest) by (intros H; apply Hnf; right; exact H).
  destruct r; cbn [app Accept.delays].
  - apply IH. exact Hrest.
  - f_equal. apply IH. exact Hrest.
  - exfalso. apply Hnf. left.
Qed.

Lemma accept_resets_backoff_witness :
  Accept.delays ([Accept.Transient; Accept.Transient] ++ Accept.Accepted :: [Accept.Transient]) None
  = Accept.delays [Accept.Transient; Accept.Transient] None ++ Accept.delays [Accept.Transient] None.
Proof.
  apply (accept_resets_backoff [Accept.Transient; Accept.Transient] [Accept.Transient] None).
  intros H. apply list_elem_of_In in H. cbn in H.
  destruct H as [H | [H | H]]; [discriminate H | discriminate H | exact H].
Defined.
